(** * Soccer_blog: the aggregator and the renderer of [generate_blog.py]

    A shallow embedding of the two functions of [src/generate_blog.py],
    [fetch_and_process_data] and [generate_html], and of the top-level
    statements that call them, followed by the properties of the
    specification checked against it.

    Conventions of the embedding.
    - Text is a list of bytes ([list ascii]); Python's [str] ordering is the
      code-point ordering, which the byte-wise lexicographic ordering of
      UTF-8 text reproduces.
    - A cell of the frame read by [pd.read_csv] is an [option]: [None] is
      pandas' missing value (NaN).  The team columns are columns of text
      and the goal columns hold integers.  [pd.read_csv] reads a column of
      numerals as numbers, so a frame of this type stands for a CSV whose
      team names read as text ([text_names]).
    - A goal column without a missing value is int64 and is summed with
      wrap-around ([wrap64]); with a missing value it is float64 and its
      sum is rounded to a double ([to_double]).  The properties on totals
      of float columns take frames whose goal values add up to less than
      2^53 in absolute value ([goal_mass]), where no addition is rounded.
    - The quotient [total_wins / matches_played] is a binary64 division and
      [.round(2)] is numpy's multiply-by-100, round-to-nearest-even integer,
      divide-by-100; module [Binary64] carries these roundings out exactly
      on integers.  The stored double [k / 100] is represented by its
      number of hundredths [k].
    - [sort_values] does not say which of several rows with the same
      win_rate comes first (the default sort of pandas is not stable): the
      aggregator takes the sort as a parameter, of which only
      [sorts_by_win_rate] is assumed.
    - The clock, the files, the text encoding and the remote CSV are the
      fields of a [World] that [generate_html] and the top-level statements
      read and update.  Files are opened in text mode: what is read is the
      stored bytes decoded, what is stored is the text encoded, and both
      can fail, as can opening the file.
    - The diagnostic [print] calls are not modelled. *)

From Stdlib Require Import ZArith List Bool Ascii String Lia.
From Stdlib Require Import DecimalString Permutation Sorted.
From Stdlib Require PrimFloat FloatOps Uint63 SpecFloat.
Import ListNotations.
Open Scope Z_scope.

(** ** Text *)

Module Text.

Definition text := list ascii.

Definition lit (s : string) : text := list_ascii_of_string s.

Fixpoint text_eqb (a b : text) : bool :=
  match a, b with
  | [], [] => true
  | x :: a', y :: b' => Ascii.eqb x y && text_eqb a' b'
  | _, _ => false
  end.

Definition text_eq_dec : forall a b : text, {a = b} + {a <> b} :=
  list_eq_dec ascii_dec.

(** Python's [a <= b] on [str]. *)
Fixpoint text_leb (a b : text) : bool :=
  match a, b with
  | [], _ => true
  | _ :: _, [] => false
  | x :: a', y :: b' =>
      match Ascii.compare x y with
      | Lt => true
      | Gt => false
      | Eq => text_leb a' b'
      end
  end.

(** [s.startswith(p)] *)
Fixpoint startswith (s p : text) {struct p} : bool :=
  match p, s with
  | [], _ => true
  | _ :: _, [] => false
  | x :: p', y :: s' => Ascii.eqb x y && startswith s' p'
  end.

(** [sub in s] *)
Fixpoint contains (s sub : text) : bool :=
  startswith s sub ||
  match s with
  | [] => false
  | _ :: s' => contains s' sub
  end.

(** [str.replace] scans left to right; at a position where [old] starts it
    emits [new] and resumes after the occurrence, elsewhere it copies one
    character.  [skip] counts the characters of a matched occurrence that
    are still to be stepped over. *)
Fixpoint replace_from (old new : text) (skip : nat) (s : text) : text :=
  match s with
  | [] => []
  | c :: s' =>
      match skip with
      | S k => replace_from old new k s'
      | O =>
          if startswith s old
          then new ++ replace_from old new (Nat.pred (List.length old)) s'
          else c :: replace_from old new O s'
      end
  end.

(** [s.replace(old, new)].  With an empty [old] Python inserts [new] before
    every character and at the end. *)
Definition replace (old new s : text) : text :=
  match old with
  | [] => new ++ flat_map (fun c => c :: new) s
  | _ :: _ => replace_from old new O s
  end.

(** ASCII letters and their lower case. *)
Definition is_letter (c : ascii) : bool :=
  let n := nat_of_ascii c in
  ((65 <=? n) && (n <=? 90) || (97 <=? n) && (n <=? 122))%nat.

Definition lower (c : ascii) : ascii :=
  let n := nat_of_ascii c in
  if ((65 <=? n) && (n <=? 90))%nat then ascii_of_nat (n + 32) else c.

(** [str(n)] for an [int]. *)
Definition str_int (z : Z) : text :=
  lit (NilZero.string_of_int (Z.to_int z)).

(** [str(x)] for a [float] holding the integer [z], for [z] below 10^16 in
    absolute value; from 10^16 on Python prints an exponent, and the
    properties that print float totals keep below 2^53. *)
Definition str_float (z : Z) : text := str_int z ++ lit ".0".

(** Decimal digits of [n], zero-padded on the left to [width]. *)
Definition zpad (width : nat) (n : Z) : text :=
  let d := str_int n in
  repeat "0"%char (width - List.length d) ++ d.

End Text.
Export Text.

(** ** Binary64 rounding *)

Module Binary64.

(** The integer nearest to [n / d] for [d > 0], ties to even ([rint]). *)
Definition rint_div (n d : Z) : Z :=
  let q := n / d in
  match (2 * (n mod d)) ?= d with
  | Lt => q
  | Gt => q + 1
  | Eq => if Z.even q then q else q + 1
  end.

(** A finite non-negative double, [mant * 2 ^ expo]. *)
Record dyadic := { mant : Z; expo : Z }.

Definition dnum (x : dyadic) : Z := mant x * 2 ^ Z.max 0 (expo x).
Definition dden (x : dyadic) : Z := 2 ^ Z.max 0 (- expo x).

(** The double nearest to [n / d] ([n >= 0], [d > 0]), ties to even: the
    exponent [e] is the one with [2^52 <= (n/d) / 2^e < 2^53] and the
    mantissa is [(n/d) / 2^e] rounded.  Exponent range is not limited:
    the quotients at hand are far from overflow and underflow. *)
Definition round_b64 (n d : Z) : dyadic :=
  if n =? 0 then {| mant := 0; expo := 0 |} else
  let e0 := Z.log2 n - Z.log2 d - 52 in
  let e :=
    if 2 ^ 52 * (d * 2 ^ Z.max 0 e0) <=? n * 2 ^ Z.max 0 (- e0)
    then e0 else e0 - 1 in
  {| mant := rint_div (n * 2 ^ Z.max 0 (- e)) (d * 2 ^ Z.max 0 e);
     expo := e |}.

(** [w / m] on doubles holding the integers [w] and [m]. *)
Definition fdiv (w m : Z) : dyadic := round_b64 w m.

(** [x * c] for a double [x] and a double holding the integer [c]. *)
Definition fmul (x : dyadic) (c : Z) : dyadic :=
  round_b64 (c * dnum x) (dden x).

Definition rint (x : dyadic) : Z := rint_div (dnum x) (dden x).

(** The double nearest to the integer [z], ties to even, as the integer
    it is. *)
Definition to_double (z : Z) : Z :=
  let x := round_b64 (Z.abs z) 1 in
  Z.sgn z * (dnum x / dden x).

(** The values a float64 cell of the summary can take.  [Hundredths k] is
    the double nearest to [k / 100]. *)
Inductive float64 :=
  | NaN
  | Inf
  | Hundredths (k : Z).

(** [(w / m).round(2)] for non-negative int64 [w] and [m]: pandas divides
    without raising, [x / 0] is [inf] and [0 / 0] is NaN. *)
Definition div_round2 (w m : Z) : float64 :=
  if m =? 0
  then (if w =? 0 then NaN else Inf)
  else Hundredths (rint (fmul (fdiv w m) 100)).

(** The product [(w / m) * 100] on the binary64 numbers of the machine,
    against which [fdiv] and [fmul] are checked. *)
Definition machine_times_100 (w m : Z) : SpecFloat.spec_float :=
  FloatOps.Prim2SF
    (PrimFloat.mul
       (PrimFloat.div (PrimFloat.of_uint63 (Uint63.of_Z w))
                      (PrimFloat.of_uint63 (Uint63.of_Z m)))
       (PrimFloat.of_uint63 (Uint63.of_Z 100))).

(** The conversion of an integer to a binary64 number of the machine,
    against which [to_double] is checked. *)
Definition machine_of_int (n : Z) : SpecFloat.spec_float :=
  FloatOps.Prim2SF (PrimFloat.of_uint63 (Uint63.of_Z n)).

Definition same_value (x : dyadic) (f : SpecFloat.spec_float) : bool :=
  match f with
  | SpecFloat.S754_zero _ => dnum x =? 0
  | SpecFloat.S754_finite false m e =>
      Z.pos m * 2 ^ Z.max 0 e * dden x =? dnum x * 2 ^ Z.max 0 (- e)
  | _ => false
  end.

Definition agrees_with_machine (n : nat) : bool :=
  forallb (fun m =>
             forallb (fun w =>
                        same_value (fmul (fdiv (Z.of_nat w) (Z.of_nat m)) 100)
                                   (machine_times_100 (Z.of_nat w)
                                                      (Z.of_nat m)))
                     (seq 0 (S m)))
          (seq 1 n).

(** The order [sort_values] uses on a float column, NaN below everything
    ([na_position='last'] when descending). *)
Definition float_leb (a b : float64) : bool :=
  match a, b with
  | NaN, _ => true
  | _, NaN => false
  | _, Inf => true
  | Inf, _ => false
  | Hundredths x, Hundredths y => x <=? y
  end.

(** [f"{x:.2f}"] *)
Definition format_2f (x : float64) : text :=
  match x with
  | NaN => lit "nan"
  | Inf => lit "inf"
  | Hundredths k => str_int (k / 100) ++ lit "." ++ zpad 2 (k mod 100)
  end.

End Binary64.
Export Binary64.

(** ** Results and errors *)

(** The exceptions the program can end with.  [FetchError] stands for
    whatever [pd.read_csv] raises when the CSV cannot be fetched or
    parsed. *)
Inductive error :=
  | KeyError
  | IndexError
  | FileNotFoundError
  | PermissionError
  | IsADirectoryError
  | UnicodeDecodeError
  | UnicodeEncodeError
  | FetchError.

Inductive result (A : Type) :=
  | Ok (a : A)
  | Err (e : error).
Arguments Ok {A} a.
Arguments Err {A} e.

Definition bind {A B} (r : result A) (f : A -> result B) : result B :=
  match r with
  | Ok a => f a
  | Err e => Err e
  end.

Notation "x <- r ;; k" := (bind r (fun x => k))
  (at level 61, r at next level, right associativity).
Notation "' p <- r ;; k" := (bind r (fun p => k))
  (at level 61, p pattern, r at next level, right associativity).

(** ** The aggregator *)

Module Aggregator.

(** One row of the frame returned by [pd.read_csv], for a CSV whose team
    columns are read as text and whose goal columns are read as integers
    (see [text_names] for the team columns). *)
Record MatchRecord := {
  Date : option text;
  HOME : option text;
  AWAY : option text;
  H_GOALS : option Z;
  A_GOALS : option Z
}.

Definition DataFrame := list MatchRecord.

Definition notna {A} (c : option A) : bool :=
  match c with
  | Some _ => true
  | None => false
  end.

(** [df.dropna(axis=1, how='all')] keeps a column exactly when some row has
    a value in it; on a frame without rows no column is kept. *)
Definition kept {A} (col : MatchRecord -> option A) (df : DataFrame) : bool :=
  existsb (fun r => notna (col r)) df.

(** Lines 22 and 26 select columns by name and raise [KeyError] when one of
    them has been dropped. *)
Definition columns_present (df : DataFrame) : bool :=
  kept Date df && kept HOME df && kept H_GOALS df && kept A_GOALS df
  && kept AWAY df.

(** One row of [all_matches]. *)
Record TeamOutcome := {
  o_Date : option text;
  TEAM : option text;
  GOALS_FOR : option Z;
  GOALS_AGAINST : option Z;
  RESULT : option Z;
  IS_WIN : Z;
  IS_DRAW : Z;
  IS_LOSS : Z
}.

(** Subtraction of two cells: NaN when either is.  The difference of two
    goal values of the specification, which are not negative, is within
    the int64 range. *)
Definition sub_cells (a b : option Z) : option Z :=
  match a, b with
  | Some x, Some y => Some (x - y)
  | _, _ => None
  end.

(** [(column <op> 0).astype(int)]: a comparison with NaN is False. *)
Definition flag (p : Z -> bool) (c : option Z) : Z :=
  match c with
  | Some x => if p x then 1 else 0
  | None => 0
  end.

Definition outcome (d t : option text) (gf ga : option Z) : TeamOutcome :=
  let res := sub_cells gf ga in
  {| o_Date := d; TEAM := t; GOALS_FOR := gf; GOALS_AGAINST := ga;
     RESULT := res;
     IS_WIN := flag (fun x => 0 <? x) res;
     IS_DRAW := flag (fun x => x =? 0) res;
     IS_LOSS := flag (fun x => x <? 0) res |}.

Definition home_row (r : MatchRecord) : TeamOutcome :=
  outcome (Date r) (HOME r) (H_GOALS r) (A_GOALS r).

Definition away_row (r : MatchRecord) : TeamOutcome :=
  outcome (Date r) (AWAY r) (A_GOALS r) (H_GOALS r).

(** [pd.concat([home_df, away_df], ignore_index=True)] with the three
    outcome columns. *)
Definition all_matches (df : DataFrame) : list TeamOutcome :=
  map home_row df ++ map away_row df.

(** One row of [team_summary]. *)
Record TeamSummary := {
  team : text;
  matches_played : Z;
  total_goals_for : Z;
  total_goals_against : Z;
  total_wins : Z;
  win_rate : float64
}.

(** [team_summary]: its rows, and whether the goal columns are float64
    (they are as soon as one goal cell of the input is missing). *)
Record SummaryFrame := {
  rows : list TeamSummary;
  goals_are_float : bool
}.

(** ['count']: the number of values that are not NaN. *)
Definition count {A} (l : list (option A)) : Z :=
  Z.of_nat (List.length (filter notna l)).

(** The exact sum of the cells that are not NaN: ['sum'] skips NaN.  What
    a column of the frame gives for it is [goal_total]. *)
Definition sum_cells (l : list (option Z)) : Z :=
  fold_right (fun c acc => match c with Some x => x + acc | None => acc end)
             0 l.

(** The sum of integers.  It is ['sum'] on the IS_WIN column, whose cells
    are 0 or 1. *)
Definition sum (l : list Z) : Z := fold_right Z.add 0 l.

(** An integer as an int64 holds it. *)
Definition wrap64 (z : Z) : Z := (z + 2 ^ 63) mod 2 ^ 64 - 2 ^ 63.

(** ['sum'] on a goal column.  int64 addition wraps around.  A float64
    column (one with a missing goal somewhere) holds doubles and is summed
    in binary64: the total is taken to be the double nearest to the exact
    sum, which is what the additions give when none of them is rounded, as
    is the case while the absolute values add up to less than 2^53. *)
Definition goal_total (as_float : bool) (l : list (option Z)) : Z :=
  if as_float then to_double (sum_cells l) else wrap64 (sum_cells l).

(** What a cell adds to a ['sum']. *)
Definition cell0 (c : option Z) : Z :=
  match c with
  | Some x => x
  | None => 0
  end.

Definition in_group (t : text) (o : TeamOutcome) : bool :=
  match TEAM o with
  | Some t' => text_eqb t t'
  | None => false
  end.

Fixpoint insert_key (k : text) (l : list text) : list text :=
  match l with
  | [] => [k]
  | x :: l' => if text_leb k x then k :: l else x :: insert_key k l'
  end.

Definition sort_keys (l : list text) : list text :=
  fold_right insert_key [] l.

Definition team_names (m : list TeamOutcome) : list text :=
  flat_map (fun o => match TEAM o with Some t => [t] | None => [] end) m.

(** The keys of [groupby('TEAM')]: the distinct team names in increasing
    order; rows whose TEAM is NaN belong to no group. *)
Definition group_keys (m : list TeamOutcome) : list text :=
  sort_keys (nodup text_eq_dec (team_names m)).

(** The aggregates of lines 39-47 for one group; [as_float] tells whether
    the goal columns are float64. *)
Definition summarize (as_float : bool) (m : list TeamOutcome) (t : text)
  : TeamSummary :=
  let g := filter (in_group t) m in
  let played := count (map o_Date g) in
  let wins := sum (map IS_WIN g) in
  {| team := t;
     matches_played := played;
     total_goals_for := goal_total as_float (map GOALS_FOR g);
     total_goals_against := goal_total as_float (map GOALS_AGAINST g);
     total_wins := wins;
     win_rate := div_round2 wins played |}.

Definition team_summary_rows_of (as_float : bool) (m : list TeamOutcome)
  : list TeamSummary :=
  map (summarize as_float m) (group_keys m).

Definition goal_missing (r : MatchRecord) : bool :=
  negb (notna (H_GOALS r)) || negb (notna (A_GOALS r)).

(** GOALS_FOR and GOALS_AGAINST are each made of both goal columns of the
    input, so both are float64 as soon as one goal cell is missing. *)
Definition team_summary_of (df : DataFrame) : SummaryFrame :=
  let as_float := existsb goal_missing df in
  {| rows := team_summary_rows_of as_float (all_matches df);
     goals_are_float := as_float |}.

(** The absolute values of the goal cells of the frame, added up. *)
Definition goal_mass (df : DataFrame) : Z :=
  sum (map (fun r => Z.abs (cell0 (H_GOALS r)) + Z.abs (cell0 (A_GOALS r)))
           df).

(** Words that [pd.read_csv] does not read as text: the markers of a
    missing value, the booleans and the infinities. *)
Definition reserved_words : list text :=
  map lit ["na"; "n/a"; "nan"; "null"; "none"; "true"; "false"; "inf";
           "infinity"]%string.

(** A name that [pd.read_csv] reads as text whatever else the column
    holds: it begins with a letter and is not a reserved word. *)
Definition text_name (t : text) : bool :=
  match t with
  | c :: _ =>
      is_letter c && negb (existsb (text_eqb (map lower t)) reserved_words)
  | [] => false
  end.

Definition name_is_text (c : option text) : bool :=
  match c with
  | Some t => text_name t
  | None => true
  end.

(** The team columns are columns of text. *)
Definition text_names (df : DataFrame) : bool :=
  forallb (fun r => name_is_text (HOME r) && name_is_text (AWAY r)) df.

(** A goal value of the specification: a non-negative integer, here of an
    int64 column. *)
Definition is_goal_value (c : option Z) : bool :=
  match c with
  | Some g => (0 <=? g) && (g <? 2 ^ 63)
  | None => false
  end.

(** A record that meets the input constraint of the aggregator: a home
    team, an away team and a goal value for each side. *)
Definition input_record (r : MatchRecord) : bool :=
  notna (HOME r) && name_is_text (HOME r)
  && notna (AWAY r) && name_is_text (AWAY r)
  && is_goal_value (H_GOALS r) && is_goal_value (A_GOALS r).

(** A MatchRecord of the data model: an input record with a date. *)
Definition match_record (r : MatchRecord) : bool :=
  notna (Date r) && input_record r.

(** Line 52. *)
Definition finding (top : TeamSummary) : text :=
  lit "The team with the highest win rate is " ++ team top
  ++ lit " with a win rate of " ++ format_2f (win_rate top) ++ lit ".".

(** [.iloc[0]] *)
Definition iloc0 {A} (l : list A) : result A :=
  match l with
  | [] => Err IndexError
  | x :: _ => Ok x
  end.

Section WithSort.

(** [sort_values('win_rate', ascending=False)] on the rows.  pandas'
    default sort is not stable, so which of several rows with the same
    win_rate comes first is left to the library; see [sorts_by_win_rate]
    for what is known of it. *)
Variable sort_values : list TeamSummary -> list TeamSummary.

(** Lines 19-54: what the function does with the frame that line 16 has
    read, here the argument [df].  With the reading in front it is
    [fetch_and_process_url]. *)
Definition fetch_and_process_data (df : DataFrame)
  : result (SummaryFrame * list text) :=
  if columns_present df then
    let team_summary := team_summary_of df in
    top_team <- iloc0 (sort_values (rows team_summary)) ;;
    Ok (team_summary, [finding top_team])
  else Err KeyError.

End WithSort.

(** The win_rate of [a] is at least that of [b]. *)
Definition rate_ge (a b : TeamSummary) : Prop :=
  float_leb (win_rate b) (win_rate a) = true.

(** What [sort_values(..., ascending=False)] guarantees: the same rows, in
    non-increasing order of win_rate, NaN last. *)
Definition sorts_by_win_rate
  (sort_values : list TeamSummary -> list TeamSummary) : Prop :=
  forall l, Permutation l (sort_values l)
            /\ StronglySorted rate_ge (sort_values l).

(** A stable instance: insertion sort, used to run examples. *)
Fixpoint insert_row (r : TeamSummary) (l : list TeamSummary)
  : list TeamSummary :=
  match l with
  | [] => [r]
  | x :: l' =>
      if float_leb (win_rate x) (win_rate r)
      then r :: l
      else x :: insert_row r l'
  end.

Definition stable_sort_values (l : list TeamSummary) : list TeamSummary :=
  fold_right insert_row [] l.

(** Another instance, which puts the later of two rows with the same
    win_rate first. *)
Fixpoint insert_row_after (r : TeamSummary) (l : list TeamSummary)
  : list TeamSummary :=
  match l with
  | [] => [r]
  | x :: l' =>
      if float_leb (win_rate r) (win_rate x)
      then x :: insert_row_after r l'
      else r :: l
  end.

Definition reversing_sort_values (l : list TeamSummary) : list TeamSummary :=
  fold_right insert_row_after [] l.

End Aggregator.
Export Aggregator.

(** ** The renderer and the top-level program *)

Module Renderer.

Definition nl : text := ["010"%char].
Definition indent8 : text := lit "        ".
Definition indent12 : text := lit "            ".

(** A cell of a goal column as an f-string field prints it. *)
Definition str_goals (as_float : bool) (z : Z) : text :=
  if as_float then str_float z else str_int z.

Definition td (content : text) : text :=
  indent12 ++ lit "<td>" ++ content ++ lit "</td>" ++ nl.

(** Lines 68-77: the fragment of one row.  The frame has a column of text,
    TEAM, so [iterrows] hands out each cell with its own type: counts are
    printed as integers, goal totals as the dtype of their column has
    them. *)
Definition row_html (as_float : bool) (row : TeamSummary) : text :=
  nl ++ indent8 ++ lit "<tr>" ++ nl
  ++ td (team row)
  ++ td (str_int (matches_played row))
  ++ td (str_goals as_float (total_goals_for row))
  ++ td (str_goals as_float (total_goals_against row))
  ++ td (str_int (total_wins row))
  ++ td (format_2f (win_rate row))
  ++ indent8 ++ lit "</tr>" ++ nl ++ indent8.

Definition team_summary_rows (team_summary : SummaryFrame) : text :=
  flat_map (row_html (goals_are_float team_summary)) (rows team_summary).

(** Lines 80-82. *)
Definition interesting_findings (findings : list text) : text :=
  flat_map (fun f => lit "<li>" ++ f ++ lit "</li>") findings.

(** A local time as [datetime.now()] returns it. *)
Record datetime := {
  year : Z;
  month : Z;
  day : Z;
  hour : Z;
  minute : Z;
  second : Z
}.

(** [strftime("%Y-%m-%d %H:%M:%S")]: the year in four digits, the other
    fields in two. *)
Definition strftime (t : datetime) : text :=
  zpad 4 (year t) ++ lit "-" ++ zpad 2 (month t) ++ lit "-" ++ zpad 2 (day t)
  ++ lit " " ++ zpad 2 (hour t) ++ lit ":" ++ zpad 2 (minute t)
  ++ lit ":" ++ zpad 2 (second t).

Definition tok_last_updated : text := lit "{{last_updated}}".
Definition tok_team_summary_rows : text := lit "{{team_summary_rows}}".
Definition tok_interesting_findings : text := lit "{{interesting_findings}}".

(** Lines 89-91: the three replacements, one after the other. *)
Definition fill (now : datetime) (rows_html findings_html : text)
  (html_content : text) : text :=
  let html_content := replace tok_last_updated (strftime now) html_content in
  let html_content := replace tok_team_summary_rows rows_html html_content in
  replace tok_interesting_findings findings_html html_content.

(** A file: the bytes it stores, and whether the program may open it for
    reading and for writing. *)
Record file := {
  content : text;
  readable : bool;
  writable : bool
}.

Inductive node :=
  | File (f : file)
  | Directory.

(** What the program sees of its environment.
    - [clock]: the local time.
    - [files]: what is at each path.
    - [creatable]: for a path at which nothing is, [None] when a file can
      be created there and otherwise the error [open(path, "w")] raises
      (no such directory, no permission).
    - [decode]: the text that reading in text mode returns for the stored
      bytes (decoding in the locale's encoding, newlines translated), or
      [None] when the bytes cannot be decoded.
    - [encode]: the bytes that writing in text mode stores for a text, or
      [None] when the text cannot be encoded.
    - [remote]: the frame behind each URL. *)
Record World := {
  clock : datetime;
  files : text -> option node;
  creatable : text -> option error;
  decode : text -> option text;
  encode : text -> option text;
  remote : text -> option DataFrame
}.

(** [open(path, "r")] and [read()]. *)
Definition open_read (path : text) (w : World) : result text :=
  match files w path with
  | Some (File f) =>
      if readable f then
        match decode w (content f) with
        | Some s => Ok s
        | None => Err UnicodeDecodeError
        end
      else Err PermissionError
  | Some Directory => Err IsADirectoryError
  | None => Err FileNotFoundError
  end.

(** [open(path, "w")]: the file opened, emptied or created. *)
Definition open_write (path : text) (w : World) : result file :=
  match files w path with
  | Some (File f) =>
      if writable f
      then Ok {| content := []; readable := readable f; writable := true |}
      else Err PermissionError
  | Some Directory => Err IsADirectoryError
  | None =>
      match creatable w path with
      | None => Ok {| content := []; readable := true; writable := true |}
      | Some e => Err e
      end
  end.

Definition put (path : text) (n : node) (w : World) : World :=
  {| clock := clock w;
     files := fun p => if text_eqb p path then Some n else files w p;
     creatable := creatable w;
     decode := decode w;
     encode := encode w;
     remote := remote w |}.

(** Lines 94-95: [open(path, "w")] and [write(content)]. *)
Definition write_text (path content : text) (w : World) : result World :=
  f <- open_write path w ;;
  match encode w content with
  | Some stored =>
      Ok (put path (File {| content := stored; readable := readable f;
                            writable := true |}) w)
  | None => Err UnicodeEncodeError
  end.

(** The bytes stored at a path, when a file is there. *)
Definition stored_at (path : text) (w : World) : option text :=
  match files w path with
  | Some (File f) => Some (content f)
  | _ => None
  end.

Definition template_path : text := lit "index.html".

Definition generate_html (team_summary : SummaryFrame) (findings : list text)
  (output_path : text) (w : World) : result World :=
  let rows_html := team_summary_rows team_summary in
  let findings_html := interesting_findings findings in
  html_content <- open_read template_path w ;;
  let html_content := fill (clock w) rows_html findings_html html_content in
  write_text output_path html_content w.

(** The summaries that [generate_html] is given: win rates that are not
    negative and below 10^13, and float goal totals below 2^53 in absolute
    value, which a double holds exactly and Python prints without an
    exponent. *)
Definition rate_printable (x : float64) : bool :=
  match x with
  | Hundredths k => (0 <=? k) && (k <? 10 ^ 15)
  | _ => true
  end.

Definition printable (team_summary : SummaryFrame) : bool :=
  forallb (fun row =>
             rate_printable (win_rate row)
             && (negb (goals_are_float team_summary)
                 || (Z.abs (total_goals_for row) <? 2 ^ 53)
                    && (Z.abs (total_goals_against row) <? 2 ^ 53)))
          (rows team_summary).

Definition CSV_URL : text :=
  lit "https://raw.githubusercontent.com/JOSPHATT/Finished_Matches/refs/heads/main/Finished_matches.csv".

Definition OUTPUT_PATH : text := lit "index.html".

Definition read_csv (url : text) (w : World) : result DataFrame :=
  match remote w url with
  | Some df => Ok df
  | None => Err FetchError
  end.

Section WithSort.

Variable sort_values : list TeamSummary -> list TeamSummary.

(** Lines 4-54 as the source has them: the frame is read at line 16 and
    processed by the rest of the function. *)
Definition fetch_and_process_url (csv_url : text) (w : World)
  : result (SummaryFrame * list text) :=
  df <- read_csv csv_url w ;;
  fetch_and_process_data sort_values df.

(** Lines 104-105. *)
Definition main (w : World) : result World :=
  ' (team_summary, findings) <- fetch_and_process_url CSV_URL w ;;
  generate_html team_summary findings OUTPUT_PATH w.

End WithSort.

End Renderer.
Export Renderer.

(** ** Templates

    A template seen as literal text interleaved with placeholder tokens,
    and what the specification asks of the renderer for it: every token
    replaced by its value. *)

Module Template.

Inductive token :=
  | LastUpdated
  | TeamSummaryRows
  | InterestingFindings.

Definition token_text (k : token) : text :=
  match k with
  | LastUpdated => tok_last_updated
  | TeamSummaryRows => tok_team_summary_rows
  | InterestingFindings => tok_interesting_findings
  end.

Definition token_eqb (a b : token) : bool :=
  match a, b with
  | LastUpdated, LastUpdated => true
  | TeamSummaryRows, TeamSummaryRows => true
  | InterestingFindings, InterestingFindings => true
  | _, _ => false
  end.

Inductive piece :=
  | Lit (s : text)
  | Tok (k : token).

Definition piece_text (p : piece) : text :=
  match p with
  | Lit s => s
  | Tok k => token_text k
  end.

Definition template_of (ps : list piece) : text := flat_map piece_text ps.

(** The template with every token replaced by its value. *)
Definition instantiate (last_updated rows_html findings_html : text)
  (ps : list piece) : text :=
  flat_map (fun p =>
              match p with
              | Lit s => s
              | Tok LastUpdated => last_updated
              | Tok TeamSummaryRows => rows_html
              | Tok InterestingFindings => findings_html
              end) ps.

(** One token replaced by a literal. *)
Definition subst (k : token) (v : text) (ps : list piece) : list piece :=
  map (fun p =>
         match p with
         | Lit s => Lit s
         | Tok k' => if token_eqb k k' then Lit v else Tok k'
         end) ps.

Definition brace : ascii := "{"%char.

Definition no_brace (s : text) : bool :=
  forallb (fun c => negb (Ascii.eqb c brace)) s.

(** Every opening brace of [s] is followed by a character that is not an
    opening brace: [s] has no "{{" and does not end with "{". *)
Fixpoint no_double_brace (s : text) : bool :=
  match s with
  | [] => true
  | c :: s' =>
      (negb (Ascii.eqb c brace)
       || match s' with
          | [] => false
          | c' :: _ => negb (Ascii.eqb c' brace)
          end)
      && no_double_brace s'
  end.

Definition literals_ok (ps : list piece) : bool :=
  forallb (fun p => match p with
                    | Lit s => no_double_brace s
                    | Tok _ => true
                    end) ps.

Definition names_ok (df : DataFrame) : bool :=
  forallb (fun r =>
             match HOME r with Some t => no_double_brace t | None => true end
             && match AWAY r with Some t => no_double_brace t | None => true end)
          df.

(** The characters [strftime] produces. *)
Definition stamp_char (c : ascii) : bool :=
  existsb (Ascii.eqb c) (lit "0123456789-: ").

Definition is_digit (c : ascii) : bool :=
  existsb (Ascii.eqb c) (lit "0123456789").

Definition digits (n : nat) (s : text) : bool :=
  Nat.eqb (List.length s) n && forallb is_digit s.

(** YYYY-MM-DD HH:MM:SS *)
Definition timestamp_shaped (s : text) : bool :=
  match s with
  | [y1; y2; y3; y4; d1; m1; m2; d2; a1; a2; sp; h1; h2; c1; i1; i2; c2;
     s1; s2] =>
      forallb is_digit [y1; y2; y3; y4; m1; m2; a1; a2; h1; h2; i1; i2; s1; s2]
      && text_eqb [d1; d2; sp; c1; c2] (lit "-- ::")
  | _ => false
  end.

(** d.dd *)
Definition two_decimals (s : text) : bool :=
  match s with
  | [a; dot; b; c] =>
      is_digit a && Ascii.eqb dot "."%char && is_digit b && is_digit c
  | _ => false
  end.

(** What [datetime.now()] can return. *)
Definition valid_datetime (t : datetime) : Prop :=
  1 <= year t <= 9999 /\ 1 <= month t <= 12 /\ 1 <= day t <= 31 /\
  0 <= hour t <= 23 /\ 0 <= minute t <= 59 /\ 0 <= second t <= 59.

End Template.
Export Template.

(** ** Inputs used in examples *)

Definition record (d h a : option string) (hg ag : option Z) : MatchRecord :=
  {| Date := option_map lit d; HOME := option_map lit h;
     AWAY := option_map lit a; H_GOALS := hg; A_GOALS := ag |}.

Definition mk (d h a : string) (hg ag : Z) : MatchRecord :=
  record (Some d) (Some h) (Some a) (Some hg) (Some ag).

(** The one-match input of the specification. *)
Definition one_match : DataFrame := [mk "2024-01-01" "A" "B" 2 0].

(** A row whose home goals are missing, and a complete row. *)
Definition missing_home_goal : MatchRecord :=
  record (Some "2024-01-01"%string) (Some "A"%string) (Some "B"%string) None (Some 3).

Definition drawn_match : MatchRecord := mk "2024-01-02" "A" "B" 1 1.

(** A frame whose H_GOALS column is empty in every row. *)
Definition goals_column_missing : DataFrame :=
  [record (Some "2024-01-01"%string) (Some "A"%string) (Some "B"%string) None (Some 0)].

(** A win in a row without a date. *)
Definition undated_win : DataFrame :=
  [record None (Some "A"%string) (Some "B"%string) (Some 2) (Some 0);
   mk "2024-01-02" "C" "D" 1 1].

(** Two home matches of A whose goals for add up to 2^63. *)
Definition int64_overflow : DataFrame :=
  [mk "2024-01-01" "A" "B" (2 ^ 63 - 1) 0; mk "2024-01-02" "A" "C" 1 0].

(** A team whose name contains a placeholder token. *)
Definition token_in_name : DataFrame :=
  [mk "2024-01-01" "X{{last_updated}}" "B" 2 0].

(** The template of the specification's rendering example. *)
Definition spec_template : text :=
  lit "<p>{{last_updated}}</p><table>{{team_summary_rows}}</table><ul>{{interesting_findings}}</ul>".

Definition spec_pieces : list piece :=
  [Lit (lit "<p>"); Tok LastUpdated; Lit (lit "</p><table>");
   Tok TeamSummaryRows; Lit (lit "</table><ul>"); Tok InterestingFindings;
   Lit (lit "</ul>")].

Definition noon : datetime :=
  {| year := 2024; month := 1; day := 2; hour := 12; minute := 0;
     second := 0 |}.

Definition midnight : datetime :=
  {| year := 2024; month := 1; day := 3; hour := 0; minute := 0;
     second := 0 |}.

(** A file that can be read and written. *)
Definition plain_file (c : text) : node :=
  File {| content := c; readable := true; writable := true |}.

(** A world at time [now] in which only [page] is at index.html, new files
    can be created, text is stored as it is and the CSV holds [df]. *)
Definition world_of (now : datetime) (page : option node)
  (df : option DataFrame) : World :=
  {| clock := now;
     files := fun p => if text_eqb p template_path then page else None;
     creatable := fun _ => None;
     decode := Some;
     encode := Some;
     remote := fun _ => df |}.

(** A world at time [now] whose index.html is the example template and
    whose CSV holds the one-match input. *)
Definition spec_world (now : datetime) : World :=
  world_of now (Some (plain_file spec_template)) (Some one_match).

Definition one_match_finding : text :=
  lit "The team with the highest win rate is A with a win rate of 1.00.".

(** ** Definitions used by the further properties *)



(** Two matches of A against B, in both orders of the rows. *)
Definition home_and_away : DataFrame :=
  [mk "2024-01-01" "A" "B" 2 0; mk "2024-01-08" "B" "A" 1 1].

Definition away_and_home : DataFrame :=
  [mk "2024-01-08" "B" "A" 1 1; mk "2024-01-01" "A" "B" 2 0].

(** A world without index.html. *)
Definition no_template_world : World :=
  world_of noon None (Some one_match).

(** A world whose CSV cannot be fetched. *)
Definition offline_world : World :=
  world_of noon (Some (plain_file spec_template)) None.



(** A world whose index.html has no token. *)
Definition plain_world : World :=
  world_of noon (Some (plain_file (lit "<p>closed</p>"))) (Some one_match).

(** * Properties *)

(** ** Text comparison *)

Lemma text_eqb_eq (a b : text) : text_eqb a b = true <-> a = b.
Proof.
  revert b; induction a as [|x a IH]; intros [|y b]; simpl;
    try (split; [discriminate | congruence]); try tauto.
  rewrite andb_true_iff, Ascii.eqb_eq, IH.
  split; [intros [-> ->]; reflexivity | intros H; inversion H; auto].
Qed.

Lemma text_eqb_refl (a : text) : text_eqb a a = true.
Proof. now apply text_eqb_eq. Qed.

(** ** Sums and counts *)

Lemma sum_app (l1 l2 : list Z) : sum (l1 ++ l2) = sum l1 + sum l2.
Proof. induction l1 as [|x l1 IH]; simpl; [reflexivity | lia]. Qed.

Lemma sum_cells_cell0 (l : list (option Z)) : sum_cells l = sum (map cell0 l).
Proof.
  induction l as [|[x|] l IH]; simpl; [reflexivity | rewrite IH; reflexivity | exact IH].
Qed.

Lemma count_all_notna {A} (l : list (option A)) :
  Forall (fun c => notna c = true) l -> count l = Z.of_nat (List.length l).
Proof.
  intros H. unfold count. f_equal. f_equal.
  induction H as [|c l Hc _ IH]; simpl; [reflexivity|].
  rewrite Hc. simpl. now rewrite IH.
Qed.

(** ** Outcome rows *)

Lemma flag_01 (p : Z -> bool) (c : option Z) : 0 <= flag p c <= 1.
Proof. destruct c as [x|]; simpl; [destruct (p x)|]; lia. Qed.

Lemma IS_WIN_01 (o : TeamOutcome) :
  (exists d t gf ga, o = outcome d t gf ga) -> 0 <= IS_WIN o <= 1.
Proof. intros (d & t & gf & ga & ->). apply flag_01. Qed.

Lemma all_matches_outcome (df : DataFrame) (o : TeamOutcome) :
  In o (all_matches df) ->
  exists r, In r df /\ (o = home_row r \/ o = away_row r).
Proof.
  unfold all_matches. rewrite in_app_iff, !in_map_iff.
  intros [(r & <- & Hr) | (r & <- & Hr)]; exists r; auto.
Qed.

Lemma in_group_iff (t : text) (o : TeamOutcome) :
  in_group t o = true <-> TEAM o = Some t.
Proof.
  unfold in_group. destruct (TEAM o) as [t'|].
  - rewrite text_eqb_eq. split; congruence.
  - split; discriminate.
Qed.

(** ** Group keys *)

Lemma insert_key_perm (k : text) (l : list text) :
  Permutation (k :: l) (insert_key k l).
Proof.
  induction l as [|x l IH]; simpl; [reflexivity|].
  destruct (text_leb k x); [reflexivity|].
  rewrite perm_swap. now constructor.
Qed.

Lemma sort_keys_perm (l : list text) : Permutation l (sort_keys l).
Proof.
  induction l as [|x l IH]; simpl; [constructor|].
  rewrite <- insert_key_perm. now constructor.
Qed.

Lemma group_keys_In (m : list TeamOutcome) (t : text) :
  In t (group_keys m) <-> In t (team_names m).
Proof.
  unfold group_keys. rewrite <- (nodup_In text_eq_dec (team_names m)).
  split; apply Permutation_in;
    [symmetry|]; apply sort_keys_perm.
Qed.

Lemma group_keys_NoDup (m : list TeamOutcome) : NoDup (group_keys m).
Proof.
  unfold group_keys.
  eapply Permutation_NoDup; [apply sort_keys_perm | apply NoDup_nodup].
Qed.

Lemma team_names_In (m : list TeamOutcome) (t : text) :
  In t (team_names m) <-> exists o, In o m /\ TEAM o = Some t.
Proof.
  unfold team_names. rewrite in_flat_map. split.
  - intros (o & Ho & Ht). exists o. split; [exact Ho|].
    destruct (TEAM o) as [t'|]; simpl in Ht; [|tauto].
    destruct Ht as [->|[]]. reflexivity.
  - intros (o & Ho & Ht). exists o. split; [exact Ho|].
    rewrite Ht. now left.
Qed.

Lemma team_names_all_matches (df : DataFrame) (t : text) :
  In t (team_names (all_matches df)) <->
  exists r, In r df /\ (HOME r = Some t \/ AWAY r = Some t).
Proof.
  rewrite team_names_In. split.
  - intros (o & Ho & Ht).
    apply all_matches_outcome in Ho as (r & Hr & [-> | ->]);
      exists r; simpl in Ht; auto.
  - intros (r & Hr & [H | H]).
    + exists (home_row r). split; [|exact H].
      unfold all_matches. apply in_or_app. left. now apply in_map.
    + exists (away_row r). split; [|exact H].
      unfold all_matches. apply in_or_app. right. now apply in_map.
Qed.

Lemma summary_teams (b : bool) (m : list TeamOutcome) :
  map team (team_summary_rows_of b m) = group_keys m.
Proof.
  unfold team_summary_rows_of. rewrite map_map. simpl. apply map_id.
Qed.

Lemma summary_row_inv (b : bool) (m : list TeamOutcome) (row : TeamSummary) :
  In row (team_summary_rows_of b m) ->
  row = summarize b m (team row) /\ In (team row) (team_names m).
Proof.
  unfold team_summary_rows_of. rewrite in_map_iff.
  intros (t & <- & Ht). simpl. split; [reflexivity|].
  now apply group_keys_In.
Qed.

(** ** Running the aggregator *)

Lemma fetch_ok_inv sort_values df ts fs :
  fetch_and_process_data sort_values df = Ok (ts, fs) ->
  columns_present df = true /\ ts = team_summary_of df /\
  exists top rest,
    sort_values (rows ts) = top :: rest /\ fs = [finding top].
Proof.
  unfold fetch_and_process_data.
  destruct (columns_present df); [|discriminate].
  destruct (sort_values (rows (team_summary_of df))) as [|top rest] eqn:E;
    simpl; [discriminate|].
  intros H. inversion H; subst. rewrite E.
  split; [reflexivity|]. split; [reflexivity|]. eauto.
Qed.

Lemma kept_exists {A} (col : MatchRecord -> option A) (df : DataFrame) :
  kept col df = true <-> exists r x, In r df /\ col r = Some x.
Proof.
  unfold kept. rewrite existsb_exists. split.
  - intros (r & Hr & Hn). destruct (col r) as [x|] eqn:E; [|discriminate].
    eauto.
  - intros (r & x & Hr & E). exists r. now rewrite E.
Qed.

Lemma columns_present_rows (df : DataFrame) :
  columns_present df = true -> rows (team_summary_of df) <> [].
Proof.
  unfold columns_present. rewrite !andb_true_iff.
  intros [[[[_ Hh] _] _] _].
  apply kept_exists in Hh as (r & t & Hr & Ht).
  assert (Hin : In t (group_keys (all_matches df))).
  { apply group_keys_In, team_names_all_matches. eauto. }
  simpl. unfold team_summary_rows_of.
  destruct (group_keys (all_matches df)); [destruct Hin | discriminate].
Qed.

Lemma fetch_ok sort_values df :
  sorts_by_win_rate sort_values ->
  columns_present df = true ->
  exists top rest,
    sort_values (rows (team_summary_of df)) = top :: rest /\
    fetch_and_process_data sort_values df
    = Ok (team_summary_of df, [finding top]).
Proof.
  intros Hs Hc. unfold fetch_and_process_data. rewrite Hc.
  destruct (Hs (rows (team_summary_of df))) as [Hp _].
  destruct (sort_values (rows (team_summary_of df))) as [|top rest].
  - apply Permutation_sym, Permutation_nil in Hp.
    now apply columns_present_rows in Hc.
  - exists top, rest. split; reflexivity.
Qed.

(** ** Rounding *)

Lemma rint_div_le (n d c : Z) : 0 < d -> n <= c * d -> rint_div n d <= c.
Proof.
  intros Hd Hn. unfold rint_div.
  pose proof (Z.div_mod n d ltac:(lia)) as E.
  pose proof (Z.mod_pos_bound n d Hd) as B.
  destruct (Z.compare_spec (2 * (n mod d)) d) as [H|H|H];
    [destruct (Z.even (n / d))| |]; nia.
Qed.

Lemma rint_div_ge (n d c : Z) : 0 < d -> c * d <= n -> c <= rint_div n d.
Proof.
  intros Hd Hn. unfold rint_div.
  pose proof (Z.div_mod n d ltac:(lia)) as E.
  pose proof (Z.mod_pos_bound n d Hd) as B.
  destruct (Z.compare_spec (2 * (n mod d)) d) as [H|H|H];
    [destruct (Z.even (n / d))| |]; nia.
Qed.

(** Rounding to a double does not cross an integer [c]: a quotient that is
    at most [c] rounds to a double that is at most [c]. *)
Lemma round_b64_le (n d c : Z) :
  0 <= n -> 0 < d -> 0 < c < 2 ^ 52 -> n <= c * d ->
  expo (round_b64 n d) <= 0 /\
  0 <= mant (round_b64 n d) <= c * 2 ^ (- expo (round_b64 n d)).
Proof.
  intros Hn Hd Hc Hle. unfold round_b64.
  destruct (Z.eqb_spec n 0) as [->|Hn0]; simpl; [lia|].
  set (e0 := Z.log2 n - Z.log2 d - 52).
  assert (He0 : e0 <= 0).
  { assert (Z.log2 n <= Z.log2 (c * d)) by (apply Z.log2_le_mono; lia).
    assert (Z.log2 (c * d) <= Z.log2 c + Z.log2 d + 1)
      by (apply Z.log2_mul_above; lia).
    assert (Z.log2 c < 52) by (apply Z.log2_lt_pow2; lia).
    unfold e0. lia. }
  match goal with |- context [if ?b then e0 else e0 - 1] =>
    set (e := if b then e0 else e0 - 1) end.
  assert (He : e <= 0) by (unfold e; destruct (_ <=? _); lia).
  split; [exact He|].
  rewrite (Z.max_l 0 e), (Z.max_r 0 (- e)) by lia.
  assert (Hp : 0 < 2 ^ (- e)) by (apply Z.pow_pos_nonneg; lia).
  change (2 ^ 0) with 1. rewrite Z.mul_1_r. split.
  - apply rint_div_ge; nia.
  - apply rint_div_le; nia.
Qed.

Lemma div_round2_unit (w m : Z) :
  0 <= w <= m -> 0 < m ->
  exists k, div_round2 w m = Hundredths k /\ 0 <= k <= 100.
Proof.
  intros Hw Hm. unfold div_round2.
  destruct (Z.eqb_spec m 0) as [|_]; [lia|].
  eexists. split; [reflexivity|].
  unfold fdiv, fmul, rint.
  destruct (round_b64_le w m 1) as [He [Hm0 Hm1]]; try lia.
  set (x := round_b64 w m) in *.
  assert (Hx : dnum x = mant x /\ dden x = 2 ^ (- expo x)).
  { unfold dnum, dden. rewrite Z.max_l, Z.max_r by lia.
    change (2 ^ 0) with 1. lia. }
  destruct Hx as [-> ->].
  assert (Hp : 0 < 2 ^ (- expo x)) by (apply Z.pow_pos_nonneg; lia).
  destruct (round_b64_le (100 * mant x) (2 ^ (- expo x)) 100)
    as [He' [Hy0 Hy1]]; try lia.
  set (y := round_b64 (100 * mant x) (2 ^ (- expo x))) in *.
  unfold dnum, dden. rewrite Z.max_l, Z.max_r by lia.
  change (2 ^ 0) with 1. rewrite Z.mul_1_r.
  assert (Hq : 0 < 2 ^ (- expo y)) by (apply Z.pow_pos_nonneg; lia).
  split; [apply rint_div_ge | apply rint_div_le]; lia.
Qed.

(** The rounding model computes what the machine computes, here for all
    quotients of counts up to 64. *)
Lemma binary64_agrees_with_machine : agrees_with_machine 64 = true.
Proof. vm_compute. reflexivity. Qed.

Lemma rint_div_1 (n : Z) : rint_div n 1 = n.
Proof. unfold rint_div. rewrite Z.div_1_r, Z.mod_1_r. reflexivity. Qed.

Lemma round_b64_small (n : Z) :
  0 <= n < 2 ^ 53 ->
  dnum (round_b64 n 1) / dden (round_b64 n 1) = n.
Proof.
  intros [Hn0 Hn1]. unfold round_b64.
  destruct (Z.eqb_spec n 0) as [->|Hne]; [reflexivity|].
  assert (Hpos : 0 < n) by lia.
  pose proof (Z.log2_spec n Hpos) as [Hlo _].
  assert (Hl : Z.log2 n < 53) by (apply Z.log2_lt_pow2; lia).
  pose proof (Z.log2_nonneg n) as Hl0.
  change (Z.log2 1) with 0.
  set (e0 := Z.log2 n - 0 - 52).
  assert (He0 : e0 <= 0) by (unfold e0; lia).
  rewrite (Z.max_l 0 e0), (Z.max_r 0 (- e0)) by lia.
  change (2 ^ 0) with 1. rewrite Z.mul_1_r.
  assert (Hp : 0 < 2 ^ (- e0)) by (apply Z.pow_pos_nonneg; lia).
  assert (Hge : 2 ^ 52 * 1 <= n * 2 ^ (- e0)).
  { assert (E : 2 ^ Z.log2 n * 2 ^ (- e0) = 2 ^ 52)
      by (rewrite <- Z.pow_add_r by lia; f_equal; unfold e0; lia).
    rewrite Z.mul_1_r, <- E. apply Z.mul_le_mono_nonneg_r; lia. }
  assert (Hb : (2 ^ 52 <=? n * 2 ^ (- e0)) = true) by (apply Z.leb_le; lia).
  rewrite Hb. unfold dnum, dden. cbn [mant expo].
  rewrite (Z.max_l 0 e0), (Z.max_r 0 (- e0)) by lia.
  change (2 ^ 0) with 1.
  rewrite rint_div_1, Z.mul_1_r. apply Z.div_mul. lia.
Qed.

Lemma to_double_small (z : Z) : Z.abs z < 2 ^ 53 -> to_double z = z.
Proof.
  intros H. unfold to_double.
  rewrite round_b64_small by lia.
  destruct z; simpl; lia.
Qed.

(** [to_double] rounds to nearest, ties to even, as the machine does. *)
Lemma to_double_examples :
  to_double (2 ^ 53 + 1) = 2 ^ 53 /\ to_double (2 ^ 53 + 3) = 2 ^ 53 + 4 /\
  to_double (- (2 ^ 53 + 1)) = - 2 ^ 53 /\ to_double 7 = 7 /\
  forallb (fun n => same_value (round_b64 n 1) (machine_of_int n))
          [1; 7; 2 ^ 53 - 1; 2 ^ 53; 2 ^ 53 + 1; 2 ^ 53 + 2; 2 ^ 53 + 3;
           2 ^ 60 + 129; 2 ^ 62 + 2 ^ 9 + 1; 2 ^ 62 + 513; 10 ^ 16 + 1]
  = true.
Proof. repeat split; vm_compute; reflexivity. Qed.

(** Ties are decided on the binary value: 23 / 40 is below 0.575 as a
    double and rounds to 0.57, 1 / 8 is exact and rounds to the even
    0.12. *)
Lemma div_round2_examples :
  div_round2 23 40 = Hundredths 57 /\ div_round2 1 8 = Hundredths 12 /\
  div_round2 2 3 = Hundredths 67 /\ div_round2 1 1 = Hundredths 100 /\
  div_round2 0 1 = Hundredths 0 /\ div_round2 1 0 = Inf /\
  div_round2 0 0 = NaN.
Proof. repeat split; vm_compute; reflexivity. Qed.

Lemma format_2f_unit (k : Z) :
  0 <= k <= 100 -> two_decimals (format_2f (Hundredths k)) = true.
Proof.
  intros Hk.
  assert (H : forallb (fun i => two_decimals
                                  (format_2f (Hundredths (Z.of_nat i))))
                      (seq 0 101) = true) by (vm_compute; reflexivity).
  rewrite forallb_forall in H.
  rewrite <- (Z2Nat.id k) by lia. apply H. apply in_seq. lia.
Qed.

(** ** The order on win rates *)

Lemma float_leb_refl (a : float64) : float_leb a a = true.
Proof. destruct a; simpl; auto. apply Z.leb_refl. Qed.

Lemma float_leb_total (a b : float64) :
  float_leb a b = false -> float_leb b a = true.
Proof.
  destruct a, b; simpl; try discriminate; auto.
  rewrite Z.leb_gt, Z.leb_le. lia.
Qed.

Lemma float_leb_trans (a b c : float64) :
  float_leb a b = true -> float_leb b c = true -> float_leb a c = true.
Proof.
  destruct a, b, c; simpl; try discriminate; auto.
  rewrite !Z.leb_le. lia.
Qed.

(** ** Sorting by win rate *)

Lemma insert_row_perm (r : TeamSummary) (l : list TeamSummary) :
  Permutation (r :: l) (insert_row r l).
Proof.
  induction l as [|x l IH]; simpl; [reflexivity|].
  destruct (float_leb (win_rate x) (win_rate r)); [reflexivity|].
  rewrite perm_swap. now constructor.
Qed.

Lemma insert_row_sorted (r : TeamSummary) (l : list TeamSummary) :
  StronglySorted rate_ge l -> StronglySorted rate_ge (insert_row r l).
Proof.
  induction 1 as [|x l Hs IH Hx]; simpl.
  - repeat constructor.
  - destruct (float_leb (win_rate x) (win_rate r)) eqn:E.
    + constructor; [now constructor|].
      constructor; [exact E|].
      eapply Forall_impl; [|exact Hx].
      intros y Hy. unfold rate_ge in *. eapply float_leb_trans; eauto.
    + constructor; [exact IH|].
      eapply Permutation_Forall; [apply insert_row_perm|].
      constructor; [|exact Hx].
      now apply float_leb_total.
Qed.

Lemma stable_sort_values_ok : sorts_by_win_rate stable_sort_values.
Proof.
  intros l. unfold stable_sort_values.
  induction l as [|r l [IHp IHs]]; simpl.
  - split; constructor.
  - split.
    + rewrite <- insert_row_perm. now constructor.
    + now apply insert_row_sorted.
Qed.

Lemma sorted_head_max sort_values (l : list TeamSummary) top rest :
  sorts_by_win_rate sort_values ->
  sort_values l = top :: rest ->
  In top l /\ forall r, In r l -> float_leb (win_rate r) (win_rate top) = true.
Proof.
  intros Hs E. destruct (Hs l) as [Hp Hso]. rewrite E in Hp, Hso.
  split.
  - eapply Permutation_in; [symmetry; exact Hp | now left].
  - intros r Hr. eapply Permutation_in in Hr; [|exact Hp].
    destruct Hr as [->|Hr]; [apply float_leb_refl|].
    inversion Hso as [|? ? _ Hall]; subst.
    rewrite Forall_forall in Hall. now apply Hall.
Qed.

(** ** Aggregates of a group *)

Lemma count_as_sum {A B} (d : B -> option A) (g : list B) :
  count (map d g) = sum (map (fun o => if notna (d o) then 1 else 0) g).
Proof.
  unfold count. induction g as [|o g IH]; [reflexivity|].
  cbn [map filter sum fold_right].
  destruct (notna (d o)); cbn [List.length]; [rewrite Nat2Z.inj_succ|];
    fold (sum (map (fun o => if notna (d o) then 1 else 0) g)); lia.
Qed.

Lemma sum_cells_as_sum {B} (d : B -> option Z) (g : list B) :
  sum_cells (map d g) = sum (map (fun o => cell0 (d o)) g).
Proof. now rewrite sum_cells_cell0, map_map. Qed.

Lemma sum_filter_perm {B} (f : B -> Z) (p : B -> bool) (m m' : list B) :
  Permutation m m' -> sum (map f (filter p m)) = sum (map f (filter p m')).
Proof.
  induction 1 as [|x m m' _ IH|x y m|m m1 m2 _ IH1 _ IH2]; simpl.
  - reflexivity.
  - destruct (p x); simpl; lia.
  - destruct (p x), (p y); simpl; lia.
  - lia.
Qed.

Lemma sum_filter_cons {B} (f : B -> Z) (p : B -> bool) (x : B) (m : list B) :
  sum (map f (filter p (x :: m)))
  = (if p x then f x else 0) + sum (map f (filter p m)).
Proof. simpl. destruct (p x); simpl; lia. Qed.

Lemma sum_01 {B} (f : B -> Z) (g : list B) :
  (forall o, In o g -> 0 <= f o <= 1) ->
  0 <= sum (map f g) <= Z.of_nat (List.length g).
Proof.
  induction g as [|o g IH]; intros H; simpl; [lia|].
  pose proof (H o (or_introl eq_refl)).
  assert (0 <= sum (map f g) <= Z.of_nat (List.length g))
    by (apply IH; intros; apply H; now right).
  lia.
Qed.

Lemma all_matches_middle (df1 df2 : DataFrame) (r : MatchRecord) :
  Permutation (all_matches (df1 ++ r :: df2))
              (home_row r :: away_row r :: all_matches (df1 ++ df2)).
Proof.
  unfold all_matches. rewrite !map_app. cbn [map].
  rewrite <- !app_assoc. cbn [app].
  etransitivity; [symmetry; apply Permutation_middle|].
  apply perm_skip.
  rewrite !app_assoc.
  etransitivity; [symmetry; apply Permutation_middle|].
  apply perm_skip. reflexivity.
Qed.

(** Summing one aggregate over all groups visits every row that has a team
    exactly once. *)
Lemma sum_one_key (keys : list text) (t0 : text) (x : Z) :
  NoDup keys -> In t0 keys ->
  sum (map (fun t => if text_eqb t t0 then x else 0) keys) = x.
Proof.
  induction 1 as [|k keys Hk _ IH]; intros Hin; [destruct Hin|].
  simpl. destruct Hin as [->|Hin].
  - rewrite text_eqb_refl.
    assert (E : sum (map (fun t => if text_eqb t t0 then x else 0) keys) = 0).
    { clear IH. induction keys as [|k keys IH]; simpl; [reflexivity|].
      destruct (text_eqb k t0) eqn:E.
      - apply text_eqb_eq in E. subst. exfalso. apply Hk. now left.
      - rewrite IH; [reflexivity|]. intros H. apply Hk. now right. }
    lia.
  - destruct (text_eqb k t0) eqn:E.
    + apply text_eqb_eq in E. subst. contradiction.
    + rewrite IH by exact Hin. lia.
Qed.

Lemma sum_no_key (keys : list text) (f : text -> Z) :
  (forall t, In t keys -> f t = 0) -> sum (map f keys) = 0.
Proof.
  induction keys as [|k keys IH]; intros H; simpl; [reflexivity|].
  rewrite (H k), IH; [reflexivity| |now left].
  intros; apply H; now right.
Qed.

Lemma sum_groups (f : TeamOutcome -> Z) (keys : list text)
  (m : list TeamOutcome) :
  NoDup keys ->
  (forall t, In t (team_names m) -> In t keys) ->
  sum (map (fun t => sum (map f (filter (in_group t) m))) keys)
  = sum (map f (filter (fun o => notna (TEAM o)) m)).
Proof.
  intros Hnd. induction m as [|o m IH]; intros Hcov.
  - simpl. apply sum_no_key. reflexivity.
  - assert (Hcov' : forall t, In t (team_names m) -> In t keys).
    { intros t Ht. apply Hcov. unfold team_names in *. simpl.
      apply in_or_app. now right. }
    specialize (IH Hcov').
    rewrite sum_filter_cons, <- IH.
    erewrite map_ext
      by (intros t; rewrite (sum_filter_cons f (in_group t)); reflexivity).
    assert (Hsplit : forall (a b : text -> Z) l,
      sum (map (fun t => a t + b t) l) = sum (map a l) + sum (map b l)).
    { intros a b l. induction l as [|k l IHl]; simpl; lia. }
    rewrite Hsplit. f_equal.
    unfold in_group. destruct (TEAM o) as [t0|] eqn:E; simpl.
    + apply sum_one_key; [exact Hnd|].
      apply Hcov. unfold team_names. simpl. rewrite E. now left.
    + apply sum_no_key. reflexivity.
Qed.

(** ** The aggregator: claims *)

(** The one-match input gives the two rows the specification lists. *)
Lemma one_match_summary :
  team_summary_of one_match
  = {| rows := [ {| team := lit "A"; matches_played := 1;
                    total_goals_for := 2; total_goals_against := 0;
                    total_wins := 1; win_rate := Hundredths 100 |};
                 {| team := lit "B"; matches_played := 1;
                    total_goals_for := 0; total_goals_against := 2;
                    total_wins := 0; win_rate := Hundredths 0 |} ];
       goals_are_float := false |}.
Proof. vm_compute. reflexivity. Qed.

Lemma summarize_fields (b : bool) (m : list TeamOutcome) (t : text) :
  matches_played (summarize b m t)
  = sum (map (fun o => if notna (o_Date o) then 1 else 0)
             (filter (in_group t) m)) /\
  total_goals_for (summarize b m t)
  = goal_total b (map GOALS_FOR (filter (in_group t) m)) /\
  total_goals_against (summarize b m t)
  = goal_total b (map GOALS_AGAINST (filter (in_group t) m)) /\
  total_wins (summarize b m t) = sum (map IS_WIN (filter (in_group t) m)).
Proof.
  unfold summarize. cbn [matches_played total_goals_for total_goals_against
                          total_wins].
  now rewrite count_as_sum.
Qed.

Lemma missing_goal_no_result (r : MatchRecord) :
  goal_missing r = true ->
  RESULT (home_row r) = None /\ RESULT (away_row r) = None /\
  IS_WIN (home_row r) = 0 /\ IS_WIN (away_row r) = 0.
Proof.
  unfold goal_missing, home_row, away_row, outcome. simpl.
  destruct (H_GOALS r), (A_GOALS r); simpl; try discriminate; auto.
Qed.

(** C1 (as amended): a record that is missing a goal value is not excluded
    from aggregation.  When the aggregator returns, both TeamOutcome rows
    of the record have been derived, with no result and is_win = 0; every
    team the record names has a TeamSummary row; and the matches_played of
    a row counts the dated outcome rows of its team among the other
    records, plus one for each of the two rows of this record that belongs
    to the team and carries a date. *)
Theorem C1_missing_goal_record_is_aggregated
  (sort_values : list TeamSummary -> list TeamSummary)
  (df1 df2 : DataFrame) (r : MatchRecord) (ts : SummaryFrame)
  (fs : list text) :
  goal_missing r = true ->
  text_names (df1 ++ r :: df2) = true ->
  fetch_and_process_data sort_values (df1 ++ r :: df2) = Ok (ts, fs) ->
  In (home_row r) (all_matches (df1 ++ r :: df2)) /\
  In (away_row r) (all_matches (df1 ++ r :: df2)) /\
  RESULT (home_row r) = None /\ RESULT (away_row r) = None /\
  IS_WIN (home_row r) = 0 /\ IS_WIN (away_row r) = 0 /\
  (forall t, HOME r = Some t \/ AWAY r = Some t ->
             exists row, In row (rows ts) /\ team row = t) /\
  (forall row, In row (rows ts) ->
     matches_played row
     = count (map o_Date (filter (in_group (team row))
                                 (all_matches (df1 ++ df2))))
       + (if in_group (team row) (home_row r) && notna (Date r)
          then 1 else 0)
       + (if in_group (team row) (away_row r) && notna (Date r)
          then 1 else 0)).
Proof.
  intros Hmiss _ Hf.
  pose proof (all_matches_middle df1 df2 r) as Hp.
  destruct (missing_goal_no_result r Hmiss) as (R1 & R2 & W1 & W2).
  apply fetch_ok_inv in Hf as (_ & -> & _).
  split; [eapply Permutation_in; [symmetry; exact Hp | now left]|].
  split; [eapply Permutation_in; [symmetry; exact Hp | right; now left]|].
  do 4 (split; [assumption|]).
  cbn [rows team_summary_of]. split.
  - intros t Ht.
    exists (summarize (existsb goal_missing (df1 ++ r :: df2))
                      (all_matches (df1 ++ r :: df2)) t).
    split; [|reflexivity]. unfold team_summary_rows_of.
    apply in_map, group_keys_In, team_names_all_matches.
    exists r. split; [apply in_elt | exact Ht].
  - intros row Hrow. apply summary_row_inv in Hrow as [Erow _].
    rewrite Erow at 1.
    rewrite (proj1 (summarize_fields _ _ _)), count_as_sum.
    rewrite (sum_filter_perm _ (in_group (team row)) _ _ Hp).
    rewrite !sum_filter_cons.
    cbn [o_Date home_row away_row outcome].
    destruct (in_group (team row) (home_row r)),
      (in_group (team row) (away_row r)), (notna (Date r)); cbn [andb]; lia.
Qed.

Lemma C1_witness :
  goal_missing missing_home_goal = true /\
  text_names ([] ++ missing_home_goal :: [drawn_match]) = true /\
  exists row,
    In row (rows (team_summary_of ([] ++ missing_home_goal :: [drawn_match])))
    /\ team row = lit "A" /\ matches_played row = 2.
Proof.
  split; [reflexivity|]. split; [reflexivity|].
  destruct (fetch_ok stable_sort_values
              ([] ++ missing_home_goal :: [drawn_match])
              stable_sort_values_ok eq_refl) as (top & rest & _ & Hf).
  destruct (C1_missing_goal_record_is_aggregated stable_sort_values []
              [drawn_match] missing_home_goal _ _ eq_refl eq_refl Hf)
    as (_ & _ & _ & _ & _ & _ & Hteam & Hplayed).
  destruct (Hteam (lit "A") (or_introl eq_refl)) as (row & Hrow & Et).
  exists row. split; [exact Hrow|]. split; [exact Et|].
  rewrite (Hplayed row Hrow), Et. reflexivity.
Defined.

(** C1 fails as stated: the record [missing_home_goal] lacks its home
    goals, yet both of its outcome rows are in [all_matches] and the
    summary counts it: team A has played 2 matches and conceded 4 goals,
    against 1 and 1 without that record. *)
Lemma C1_counterexample :
  goal_missing missing_home_goal = true /\
  In (home_row missing_home_goal)
     (all_matches [missing_home_goal; drawn_match]) /\
  In (away_row missing_home_goal)
     (all_matches [missing_home_goal; drawn_match]) /\
  map (fun s => (team s, matches_played s, total_goals_for s,
                 total_goals_against s))
      (rows (team_summary_of [missing_home_goal; drawn_match]))
  = [(lit "A", 2, 1, 4); (lit "B", 2, 4, 1)] /\
  map (fun s => (team s, matches_played s, total_goals_for s,
                 total_goals_against s))
      (rows (team_summary_of [drawn_match]))
  = [(lit "A", 1, 1, 1); (lit "B", 1, 1, 1)] /\
  exists fs,
    fetch_and_process_data stable_sort_values
      [missing_home_goal; drawn_match]
    = Ok (team_summary_of [missing_home_goal; drawn_match], fs).
Proof.
  split; [reflexivity|].
  split; [now left|].
  split; [right; right; now left|].
  split; [vm_compute; reflexivity|].
  split; [vm_compute; reflexivity|].
  eexists. vm_compute. reflexivity.
Qed.



(** ** Rows of the summary *)

Lemma summary_row_bounds (df : DataFrame) (row : TeamSummary) :
  (forall r, In r df -> notna (Date r) = true) ->
  In row (rows (team_summary_of df)) ->
  0 <= total_wins row <= matches_played row /\
  0 < matches_played row /\
  exists k, win_rate row = Hundredths k /\ 0 <= k <= 100.
Proof.
  intros Hd Hrow.
  apply summary_row_inv in Hrow as [Erow Hteam].
  set (m := all_matches df) in *. set (t := team row) in *.
  set (g := filter (in_group t) m).
  assert (Hg : g <> []).
  { apply team_names_In in Hteam as (o & Ho & Ht).
    assert (In o g) by (apply filter_In; split; [|apply in_group_iff]; auto).
    destruct g; [contradiction | discriminate]. }
  assert (Hplayed : matches_played row = Z.of_nat (List.length g)).
  { rewrite Erow. unfold summarize. cbn [matches_played]. fold g.
    rewrite count_all_notna, length_map; [reflexivity|].
    apply Forall_forall. intros c Hc.
    apply in_map_iff in Hc as (o & <- & Ho).
    apply filter_In in Ho as [Ho _].
    apply all_matches_outcome in Ho as (r & Hr & [-> | ->]);
      simpl; now apply Hd. }
  assert (Hwins : 0 <= total_wins row <= Z.of_nat (List.length g)).
  { rewrite Erow. unfold summarize. cbn [total_wins]. fold g.
    apply sum_01. intros o Ho. apply IS_WIN_01.
    apply filter_In in Ho as [Ho _].
    apply all_matches_outcome in Ho as (r & _ & [-> | ->]);
      unfold home_row, away_row; eauto. }
  assert (Hpos : 0 < Z.of_nat (List.length g))
    by (destruct g; [congruence | simpl; lia]).
  split; [lia|]. split; [lia|].
  assert (Hrate : win_rate row
                  = div_round2 (total_wins row) (matches_played row))
    by (rewrite Erow at 1; unfold summarize; cbn; now rewrite Erow).
  rewrite Hrate. apply div_round2_unit; lia.
Qed.

(** C2: the claim fails on the code at [undated_win], a non-empty input of
    records that carry both teams and both goal values, whose first
    record has no date and is won by team A.  ['count'] of the Date column
    leaves that record out of A's matches_played while its win is summed,
    so A's win_rate is 1 / 0: the finding names A, whose win_rate is
    maximal, but shows the win_rate as "inf" and not to two decimal places,
    whatever the order the sort gives to rows of equal win_rate. *)
Theorem C2_finding_without_decimals :
  undated_win <> [] /\
  forallb input_record undated_win = true /\
  forall sort_values, sorts_by_win_rate sort_values ->
    exists top,
      fetch_and_process_data sort_values undated_win
      = Ok (team_summary_of undated_win, [finding top]) /\
      team top = lit "A" /\ win_rate top = Inf /\
      matches_played top = 0 /\ total_wins top = 1 /\
      finding top
      = lit "The team with the highest win rate is A with a win rate of inf."
      /\ two_decimals (format_2f (win_rate top)) = false.
Proof.
  split; [discriminate|]. split; [reflexivity|].
  intros sort_values Hs.
  destruct (fetch_ok sort_values undated_win Hs eq_refl)
    as (top & rest & E & Hf).
  destruct (sorted_head_max sort_values _ top rest Hs E) as [Hin Hmax].
  exists top. split; [exact Hf|].
  assert (HA : In (summarize false (all_matches undated_win) (lit "A"))
                  (rows (team_summary_of undated_win)))
    by (vm_compute; now left).
  apply Hmax in HA. clear Hmax Hf E.
  vm_compute in Hin.
  destruct Hin as [<-|[<-|[<-|[<-|[]]]]];
    try (vm_compute in HA; discriminate HA).
  repeat split; vm_compute; reflexivity.
Qed.

Lemma C2_witness :
  sorts_by_win_rate stable_sort_values /\
  fetch_and_process_data stable_sort_values undated_win
  = Ok (team_summary_of undated_win,
        [lit "The team with the highest win rate is A with a win rate of inf."]).
Proof.
  split; [exact stable_sort_values_ok|].
  destruct C2_finding_without_decimals as (_ & _ & H).
  destruct (H stable_sort_values stable_sort_values_ok)
    as (top & Hf & _ & _ & _ & _ & Ht & _).
  rewrite Hf, Ht. reflexivity.
Defined.

(** C4: the claim fails on the code at [undated_win].  The record without
    a date is won by team A; ['count'] of the Date column skips it, the sum
    of IS_WIN does not, so A's row has matches_played = 0 and
    total_wins = 1, the win_rate division divides by zero and the win_rate
    is infinite. *)
Theorem C4_bounds_fail_without_a_date :
  forallb input_record undated_win = true /\
  exists fs row,
    fetch_and_process_data stable_sort_values undated_win
    = Ok (team_summary_of undated_win, fs) /\
    In row (rows (team_summary_of undated_win)) /\
    team row = lit "A" /\
    matches_played row = 0 /\ total_wins row = 1 /\ win_rate row = Inf /\
    ~ total_wins row <= matches_played row /\
    ~ 0 < matches_played row.
Proof.
  split; [reflexivity|].
  eexists. exists (summarize false (all_matches undated_win) (lit "A")).
  split; [vm_compute; reflexivity|].
  split; [vm_compute; now left|].
  do 4 (split; [vm_compute; reflexivity|]).
  split; [apply Z.lt_nge | apply Z.le_ngt]; vm_compute; [reflexivity|].
  discriminate.
Qed.

(** C5: for every input, a team name appears in some TeamSummary row that
    the aggregator returns if and only if it is the home team or the away
    team of some input record, and no team name appears in two rows; the
    aggregator returns a summary whenever none of the five columns is empty
    in every record. *)
Theorem C5_teams_round_trip
  (sort_values : list TeamSummary -> list TeamSummary) (df : DataFrame) :
  sorts_by_win_rate sort_values ->
  text_names df = true ->
  (columns_present df = true ->
   exists ts fs, fetch_and_process_data sort_values df = Ok (ts, fs)) /\
  (forall ts fs,
     fetch_and_process_data sort_values df = Ok (ts, fs) ->
     (forall t,
        In t (map team (rows ts)) <->
        exists r, In r df /\ (HOME r = Some t \/ AWAY r = Some t)) /\
     NoDup (map team (rows ts))).
Proof.
  intros Hs _. split.
  - intros Hc.
    destruct (fetch_ok sort_values df Hs Hc) as (top & rest & _ & Hf).
    eauto.
  - intros ts fs Hf. apply fetch_ok_inv in Hf as (_ & -> & _).
    cbn [rows team_summary_of]. rewrite summary_teams.
    split.
    + intros t. rewrite group_keys_In. apply team_names_all_matches.
    + apply group_keys_NoDup.
Qed.

Lemma C5_witness :
  sorts_by_win_rate stable_sort_values /\
  text_names one_match = true /\
  exists ts fs,
    fetch_and_process_data stable_sort_values one_match = Ok (ts, fs) /\
    map team (rows ts) = [lit "A"; lit "B"] /\
    NoDup (map team (rows ts)).
Proof.
  split; [exact stable_sort_values_ok|]. split; [reflexivity|].
  destruct (C5_teams_round_trip stable_sort_values one_match
              stable_sort_values_ok eq_refl) as (Hex & Hall).
  destruct (Hex eq_refl) as (ts & fs & Hf).
  exists ts, fs. split; [exact Hf|].
  split; [|exact (proj2 (Hall ts fs Hf))].
  apply fetch_ok_inv in Hf as (_ & -> & _). reflexivity.
Defined.

(** C8 fails as stated: on the input without records the error is the
    KeyError of the column selection, not the IndexError that taking the
    first row of an empty summary raises: [dropna] has kept no column, and
    findings generation is not reached. *)
Lemma C8_counterexample :
  columns_present [] = false /\
  fetch_and_process_data stable_sort_values [] = Err KeyError /\
  fetch_and_process_data stable_sort_values [] <> Err IndexError.
Proof. split; [reflexivity|]. split; [reflexivity | discriminate]. Qed.

(** C8 (as amended): on an input with no record the aggregator does not
    return an empty summary and no findings: it fails with KeyError at the
    column selection of line 22, because [dropna(axis=1, how='all')] keeps
    no column of a frame without rows; this is so whatever the sort does,
    and also when the frame is read from a URL. *)
Theorem C8_empty_input_fails
  (sort_values : list TeamSummary -> list TeamSummary) :
  columns_present [] = false /\
  fetch_and_process_data sort_values [] = Err KeyError /\
  (forall out, fetch_and_process_data sort_values [] <> Ok out) /\
  (forall w url, remote w url = Some [] ->
                 fetch_and_process_url sort_values url w = Err KeyError).
Proof.
  split; [reflexivity|]. split; [reflexivity|]. split; [discriminate|].
  intros w url H. unfold fetch_and_process_url, read_csv. now rewrite H.
Qed.

Lemma C8_witness :
  remote (world_of noon None (Some [])) CSV_URL = Some [] /\
  fetch_and_process_url stable_sort_values CSV_URL
    (world_of noon None (Some []))
  = Err KeyError.
Proof.
  split; [reflexivity|].
  destruct (C8_empty_input_fails stable_sort_values) as (_ & _ & _ & H).
  apply H. reflexivity.
Defined.

(** ** Goals scored and conceded *)

Lemma sum_all_groups (f : TeamOutcome -> Z) (m : list TeamOutcome) :
  (forall o, In o m -> notna (TEAM o) = true) ->
  sum (map (fun t => sum (map f (filter (in_group t) m))) (group_keys m))
  = sum (map f m).
Proof.
  intros Hn. rewrite sum_groups.
  - f_equal. f_equal. apply forallb_filter_id.
    apply forallb_forall. exact Hn.
  - apply group_keys_NoDup.
  - intros t. apply group_keys_In.
Qed.

Lemma sum_all_matches (f : TeamOutcome -> Z) (df : DataFrame) :
  sum (map f (all_matches df))
  = sum (map (fun r => f (home_row r)) df)
    + sum (map (fun r => f (away_row r)) df).
Proof. unfold all_matches. now rewrite map_app, sum_app, !map_map. Qed.

Lemma wrap64_small (z : Z) : - 2 ^ 63 <= z < 2 ^ 63 -> wrap64 z = z.
Proof.
  intros H. unfold wrap64.
  replace (2 ^ 64) with (2 * 2 ^ 63) by reflexivity.
  rewrite Z.mod_small; lia.
Qed.

Lemma goal_total_int (l : list (option Z)) :
  - 2 ^ 63 <= sum_cells l < 2 ^ 63 -> goal_total false l = sum_cells l.
Proof. apply wrap64_small. Qed.

Lemma goal_total_small (b : bool) (l : list (option Z)) :
  Z.abs (sum_cells l) < 2 ^ 53 -> goal_total b l = sum_cells l.
Proof.
  intros H. assert (H53 : 2 ^ 53 < 2 ^ 63) by reflexivity.
  destruct b; [now apply to_double_small | apply goal_total_int; lia].
Qed.

Lemma abs_sum_filter {B} (f : B -> Z) (p : B -> bool) (m : list B) :
  Z.abs (sum (map f (filter p m))) <= sum (map (fun o => Z.abs (f o)) m).
Proof.
  induction m as [|o m IH]; simpl; [lia|].
  destruct (p o); simpl; lia.
Qed.

Lemma goal_mass_all_matches (df : DataFrame) :
  sum (map (fun o => Z.abs (cell0 (GOALS_FOR o))) (all_matches df))
  = goal_mass df /\
  sum (map (fun o => Z.abs (cell0 (GOALS_AGAINST o))) (all_matches df))
  = goal_mass df.
Proof.
  rewrite !sum_all_matches.
  cbn [GOALS_FOR GOALS_AGAINST home_row away_row outcome].
  unfold goal_mass. split; induction df as [|r df IH]; simpl; lia.
Qed.

(** No total of a group exceeds the goal mass of the frame. *)
Lemma group_total_bound (df : DataFrame) (t : text) :
  Z.abs (sum_cells (map GOALS_FOR (filter (in_group t) (all_matches df))))
  <= goal_mass df /\
  Z.abs (sum_cells (map GOALS_AGAINST (filter (in_group t) (all_matches df))))
  <= goal_mass df.
Proof.
  rewrite !sum_cells_as_sum.
  destruct (goal_mass_all_matches df) as [F A].
  split; [rewrite <- F | rewrite <- A];
    apply (abs_sum_filter (fun o => cell0 (_ o))).
Qed.

(** While the goal values add up to less than 2^53 in absolute value, no
    total is rounded or wraps around. *)
Lemma summarize_goals_exact (b : bool) (df : DataFrame) (t : text) :
  goal_mass df < 2 ^ 53 ->
  total_goals_for (summarize b (all_matches df) t)
  = sum (map (fun o => cell0 (GOALS_FOR o))
             (filter (in_group t) (all_matches df))) /\
  total_goals_against (summarize b (all_matches df) t)
  = sum (map (fun o => cell0 (GOALS_AGAINST o))
             (filter (in_group t) (all_matches df))).
Proof.
  intros Hm.
  destruct (summarize_fields b (all_matches df) t) as (_ & F & A & _).
  destruct (group_total_bound df t) as [BF BA].
  rewrite F, A, !goal_total_small, !sum_cells_as_sum by lia.
  split; reflexivity.
Qed.

(** The totals of int64 columns do not wrap around while the goal values
    add up to less than 2^63. *)
Lemma summarize_goals_int (df : DataFrame) (t : text) :
  goal_mass df < 2 ^ 63 ->
  total_goals_for (summarize false (all_matches df) t)
  = sum (map (fun o => cell0 (GOALS_FOR o))
             (filter (in_group t) (all_matches df))) /\
  total_goals_against (summarize false (all_matches df) t)
  = sum (map (fun o => cell0 (GOALS_AGAINST o))
             (filter (in_group t) (all_matches df))).
Proof.
  intros Hm.
  destruct (summarize_fields false (all_matches df) t) as (_ & F & A & _).
  destruct (group_total_bound df t) as [BF BA].
  rewrite F, A, !goal_total_int, !sum_cells_as_sum by lia.
  split; reflexivity.
Qed.

Lemma input_record_goals (df : DataFrame) :
  forallb input_record df = true -> existsb goal_missing df = false.
Proof.
  intros H. destruct (existsb goal_missing df) eqn:E; [|reflexivity].
  apply existsb_exists in E as (r & Hr & Hm).
  rewrite forallb_forall in H. specialize (H r Hr).
  unfold input_record in H. rewrite !andb_true_iff in H.
  destruct H as [[_ Hh] Ha]. unfold goal_missing in Hm.
  destruct (H_GOALS r); [|discriminate Hh].
  destruct (A_GOALS r); [|discriminate Ha]. discriminate Hm.
Qed.

Lemma input_record_names (df : DataFrame) :
  forallb input_record df = true ->
  forall r, In r df -> notna (HOME r) = true /\ notna (AWAY r) = true.
Proof.
  intros H r Hr. rewrite forallb_forall in H. specialize (H r Hr).
  unfold input_record in H. rewrite !andb_true_iff in H. tauto.
Qed.

(** C10 fails as stated: in [int64_overflow] every record names both
    teams and has numeric goal values, and team A scores 2^63 - 1 and 1
    goals in its two matches.  The int64 sum wraps around: A's
    total_goals_for is -2^63, while B and C concede 2^63 - 1 and 1 goals:
    the rows sum to -2^63 goals for and 2^63 goals against. *)
Lemma C10_counterexample :
  forallb input_record int64_overflow = true /\
  exists fs,
    fetch_and_process_data stable_sort_values int64_overflow
    = Ok (team_summary_of int64_overflow, fs) /\
    map (fun s => (team s, total_goals_for s, total_goals_against s))
        (rows (team_summary_of int64_overflow))
    = [(lit "A", - 2 ^ 63, 0); (lit "B", 0, 2 ^ 63 - 1); (lit "C", 0, 1)] /\
    sum (map total_goals_for (rows (team_summary_of int64_overflow)))
    = - 2 ^ 63 /\
    sum (map total_goals_against (rows (team_summary_of int64_overflow)))
    = 2 ^ 63.
Proof.
  split; [reflexivity|]. eexists.
  split; [vm_compute; reflexivity|]. repeat split; vm_compute; reflexivity.
Qed.

(** C10 (as amended): for every input of records that name both teams and
    have numeric goal values, in which the goal values add up to less than
    2^63, the sum of total_goals_for over the TeamSummary rows equals the
    sum of total_goals_against over them; both equal the sum of all home
    goals plus the sum of all away goals. *)
Theorem C10_goals_for_equal_goals_against
  (sort_values : list TeamSummary -> list TeamSummary) (df : DataFrame)
  (ts : SummaryFrame) (fs : list text) :
  forallb input_record df = true ->
  goal_mass df < 2 ^ 63 ->
  fetch_and_process_data sort_values df = Ok (ts, fs) ->
  sum (map total_goals_for (rows ts))
  = sum (map total_goals_against (rows ts)) /\
  sum (map total_goals_for (rows ts))
  = sum_cells (map H_GOALS df) + sum_cells (map A_GOALS df).
Proof.
  intros Hrec Hmass Hf. apply fetch_ok_inv in Hf as (_ & -> & _).
  pose proof (input_record_names df Hrec) as Hn.
  cbn [rows team_summary_of]. unfold team_summary_rows_of.
  rewrite (input_record_goals df Hrec), !map_map.
  assert (Hteams : forall o, In o (all_matches df) -> notna (TEAM o) = true).
  { intros o Ho.
    apply all_matches_outcome in Ho as (r & Hr & [-> | ->]);
      simpl; now apply Hn. }
  erewrite (map_ext (fun t => total_goals_for (summarize _ _ t)))
    by (intros t; apply (summarize_goals_int df t Hmass)).
  erewrite (map_ext (fun t => total_goals_against (summarize _ _ t)))
    by (intros t; apply (summarize_goals_int df t Hmass)).
  rewrite !sum_all_groups by exact Hteams.
  rewrite !sum_all_matches. cbn [GOALS_FOR GOALS_AGAINST home_row away_row outcome].
  rewrite !sum_cells_as_sum. lia.
Qed.

Lemma C10_witness :
  forallb input_record one_match = true /\
  goal_mass one_match < 2 ^ 63 /\
  sum (map total_goals_for (rows (team_summary_of one_match)))
  = sum (map total_goals_against (rows (team_summary_of one_match))).
Proof.
  split; [reflexivity|]. split; [reflexivity|].
  destruct (fetch_ok stable_sort_values one_match stable_sort_values_ok
              eq_refl) as (top & rest & _ & Hf).
  exact (proj1 (C10_goals_for_equal_goals_against stable_sort_values
                  one_match _ _ eq_refl eq_refl Hf)).
Defined.

(** ** Literal replacement *)

Lemma startswith_app (p r : text) : startswith (p ++ r) p = true.
Proof.
  induction p as [|x p IH]; simpl; [reflexivity|].
  now rewrite Ascii.eqb_refl.
Qed.

Lemma startswith_inv (s p : text) :
  startswith s p = true -> exists r, s = p ++ r.
Proof.
  revert s; induction p as [|x p IH]; intros s H; simpl in H.
  - now exists s.
  - destruct s as [|y s]; [discriminate|].
    apply andb_true_iff in H as [Hxy Hs].
    apply Ascii.eqb_eq in Hxy as ->.
    destruct (IH _ Hs) as [r ->]. now exists r.
Qed.

Lemma startswith_head (c o : ascii) (s old : text) :
  c <> o -> startswith (c :: s) (o :: old) = false.
Proof.
  intros H. simpl. destruct (Ascii.eqb_spec o c); [congruence | reflexivity].
Qed.

Lemma replace_from_skip (old new : text) (k : nat) (s : text) :
  replace_from old new k s = replace_from old new O (skipn k s).
Proof.
  revert k; induction s as [|c s IH]; intros [|k]; try reflexivity.
  simpl skipn. rewrite <- IH. reflexivity.
Qed.

Section Replace.

Variables old new : text.
Hypothesis old_not_empty : old <> [].

Lemma replace_nil : replace old new [] = [].
Proof. unfold replace. destruct old; [contradiction | reflexivity]. Qed.

(** At an occurrence of [old], [new] is emitted and the scan resumes
    after the occurrence. *)
Lemma replace_occurrence (rest : text) :
  replace old new (old ++ rest) = new ++ replace old new rest.
Proof.
  unfold replace. destruct old as [|o old'] eqn:E; [contradiction|].
  cbn [app replace_from].
  change (o :: old' ++ rest) with ((o :: old') ++ rest).
  rewrite startswith_app. f_equal.
  rewrite replace_from_skip. cbn [List.length Nat.pred].
  now rewrite skipn_app, skipn_all, Nat.sub_diag.
Qed.

(** Elsewhere one character is copied. *)
Lemma replace_step (c : ascii) (s : text) :
  startswith (c :: s) old = false ->
  replace old new (c :: s) = c :: replace old new s.
Proof.
  unfold replace. destruct old as [|o old']; [contradiction|].
  intros H. cbn [replace_from]. now rewrite H.
Qed.

(** A text without occurrence of [old] is left as it is. *)
Lemma replace_absent (s : text) :
  contains s old = false -> replace old new s = s.
Proof.
  induction s as [|c s IH]; intros H; [apply replace_nil|].
  cbn [contains] in H. apply orb_false_iff in H as [H1 H2].
  rewrite replace_step by exact H1. now rewrite IH.
Qed.

(** The leftmost occurrence is replaced and the rest of the text is
    treated in the same way. *)
Lemma replace_leftmost (pre post : text) :
  (forall i, (i < List.length pre)%nat ->
             startswith (skipn i (pre ++ old ++ post)) old = false) ->
  replace old new (pre ++ old ++ post)
  = pre ++ new ++ replace old new post.
Proof.
  induction pre as [|c pre IH]; intros H.
  - apply replace_occurrence.
  - cbn [app]. rewrite replace_step.
    + f_equal. apply IH. intros i Hi.
      apply (H (S i)). simpl. lia.
    + apply (H O). simpl. lia.
Qed.

(** When [new] is not empty and shares no character with [old], what
    starts the result starts the text. *)
Lemma startswith_replace (s p : text) :
  new <> [] ->
  (forall c, In c new -> ~ In c old) ->
  (forall c, In c p -> In c old) ->
  startswith (replace old new s) p = true -> startswith s p = true.
Proof.
  intros Hne Hdis. revert p.
  induction s as [|c s IH]; intros p Hp H.
  - now rewrite replace_nil in H.
  - destruct p as [|x p]; [reflexivity|].
    destruct (startswith (c :: s) old) eqn:E.
    + apply startswith_inv in E as [rest E]. rewrite E in H.
      rewrite replace_occurrence in H.
      destruct new as [|n0 new']; [contradiction|].
      cbn in H. apply andb_true_iff in H as [Hx _].
      apply Ascii.eqb_eq in Hx as ->.
      exfalso. apply (Hdis n0); [now left | apply Hp; now left].
    + rewrite replace_step in H by exact E.
      cbn in H |- *. apply andb_true_iff in H as [Hx Hs].
      rewrite Hx. cbn. apply IH; [|exact Hs].
      intros a Ha. apply Hp. now right.
Qed.

Lemma contains_skip (x : text) :
  (forall c, In c new -> ~ In c old) ->
  contains (new ++ x) old = contains x old.
Proof.
  intros Hdis. destruct old as [|o old'] eqn:E; [contradiction|].
  induction new as [|c n IH]; [reflexivity|].
  cbn [app contains]. rewrite startswith_head.
  - apply IH. intros a Ha. apply Hdis. now right.
  - intros ->. apply (Hdis o); now left.
Qed.

(** Then no occurrence of [old] is left in the result. *)
Lemma replace_clears (s : text) :
  new <> [] ->
  (forall c, In c new -> ~ In c old) ->
  contains (replace old new s) old = false.
Proof.
  intros Hne Hdis.
  assert (G : forall n s, (List.length s <= n)%nat ->
                          contains (replace old new s) old = false).
  { clear s. induction n as [|n IH]; intros s Hlen.
    - destruct s; [|simpl in Hlen; lia]. rewrite replace_nil.
      destruct old; [contradiction | reflexivity].
    - destruct s as [|c s].
      { rewrite replace_nil. destruct old; [contradiction | reflexivity]. }
      destruct (startswith (c :: s) old) eqn:E.
      + apply startswith_inv in E as [rest E]. rewrite E.
        rewrite replace_occurrence, contains_skip by exact Hdis.
        apply IH.
        assert (List.length (c :: s) = List.length (old ++ rest))
          by now rewrite E.
        rewrite length_app in H. simpl in H, Hlen.
        destruct old; [contradiction|]. simpl in H. lia.
      + rewrite replace_step by exact E. cbn [contains].
        rewrite IH by (simpl in Hlen; lia).
        rewrite orb_false_r.
        destruct (startswith (c :: replace old new s) old) eqn:E';
          [|reflexivity].
        rewrite <- replace_step in E' by exact E.
        apply startswith_replace in E'; auto. congruence. }
  apply (G (List.length s)). lia.
Qed.

End Replace.

(** ** Braces *)

Lemma no_double_brace_app (a b : text) :
  no_double_brace a = true -> no_double_brace b = true ->
  no_double_brace (a ++ b) = true.
Proof.
  intros Ha Hb. induction a as [|c a IH]; [exact Hb|].
  cbn [no_double_brace app] in *.
  apply andb_true_iff in Ha as [Hc Ha].
  rewrite (IH Ha), andb_true_r.
  destruct (negb (Ascii.eqb c brace)); [reflexivity|].
  destruct a as [|c' a]; [discriminate | exact Hc].
Qed.

Lemma no_brace_no_double (s : text) :
  no_brace s = true -> no_double_brace s = true.
Proof.
  induction s as [|c s IH]; [reflexivity|].
  cbn [no_brace forallb no_double_brace].
  intros H. apply andb_true_iff in H as [Hc Hs].
  rewrite Hc. now apply IH.
Qed.

Lemma no_double_brace_flat_map {A} (f : A -> text) (l : list A) :
  (forall x, In x l -> no_double_brace (f x) = true) ->
  no_double_brace (flat_map f l) = true.
Proof.
  induction l as [|x l IH]; intros H; [reflexivity|].
  cbn [flat_map]. apply no_double_brace_app.
  - apply H. now left.
  - apply IH. intros y Hy. apply H. now right.
Qed.

(** A text without "{{" has no occurrence of a text that starts with
    "{{". *)
Lemma no_double_brace_contains (s tail : text) :
  no_double_brace s = true ->
  contains s (brace :: brace :: tail) = false.
Proof.
  induction s as [|c s IH]; intros H; [reflexivity|].
  cbn [no_double_brace] in H. apply andb_true_iff in H as [Hc Hs].
  cbn [contains]. rewrite (IH Hs), orb_false_r.
  cbn [startswith].
  destruct (Ascii.eqb_spec brace c) as [<-|]; [|reflexivity].
  cbn in Hc. destruct s as [|c' s]; [discriminate|].
  cbn [startswith]. destruct (Ascii.eqb_spec brace c') as [<-|];
    [discriminate | reflexivity].
Qed.

(** Replacing a token leaves such a text as it is and goes on behind
    it. *)
Lemma replace_past_literal (tail new l rest : text) :
  no_double_brace l = true ->
  replace (brace :: brace :: tail) new (l ++ rest)
  = l ++ replace (brace :: brace :: tail) new rest.
Proof.
  induction l as [|c l IH]; intros H; [reflexivity|].
  cbn [no_double_brace] in H. apply andb_true_iff in H as [Hc Hl].
  cbn [app]. rewrite replace_step; [now rewrite IH | discriminate |].
  cbn [startswith].
  destruct (Ascii.eqb_spec brace c) as [<-|]; [|reflexivity].
  cbn in Hc. destruct l as [|c' l]; [discriminate|].
  cbn [app startswith]. destruct (Ascii.eqb_spec brace c') as [<-|];
    [discriminate | reflexivity].
Qed.

Lemma token_text_braces (k : token) :
  exists tail, token_text k = brace :: brace :: tail.
Proof. destruct k; eexists; reflexivity. Qed.

Lemma token_text_not_empty (k : token) : token_text k <> [].
Proof. destruct k; discriminate. Qed.

Lemma token_eqb_eq (a b : token) : token_eqb a b = true <-> a = b.
Proof. destruct a, b; simpl; split; congruence. Qed.

(** Replacing a token steps over the other two. *)
Lemma replace_past_token (k k' : token) (new rest : text) :
  token_eqb k k' = false ->
  replace (token_text k) new (token_text k' ++ rest)
  = token_text k' ++ replace (token_text k) new rest.
Proof.
  destruct k, k'; try discriminate; intros _; vm_compute; reflexivity.
Qed.

(** One replacement on a template whose literals have no "{{" replaces
    exactly the pieces that are the token. *)
Lemma replace_template (k : token) (v : text) (ps : list piece) :
  literals_ok ps = true ->
  replace (token_text k) v (template_of ps) = template_of (subst k v ps).
Proof.
  induction ps as [|p ps IH]; intros H.
  - apply replace_nil, token_text_not_empty.
  - cbn [literals_ok forallb] in H. apply andb_true_iff in H as [Hp Hps].
    specialize (IH Hps). unfold template_of in *. cbn [flat_map map subst].
    destruct p as [s|k']; cbn [piece_text].
    + destruct (token_text_braces k) as [tail E]. rewrite E in *.
      rewrite replace_past_literal by exact Hp. now rewrite IH.
    + destruct (token_eqb k k') eqn:E; cbn [piece_text].
      * apply token_eqb_eq in E as <-.
        rewrite replace_occurrence by apply token_text_not_empty.
        now rewrite IH.
      * rewrite replace_past_token by exact E. now rewrite IH.
Qed.

Lemma literals_ok_subst (k : token) (v : text) (ps : list piece) :
  no_double_brace v = true -> literals_ok ps = true ->
  literals_ok (subst k v ps) = true.
Proof.
  intros Hv. induction ps as [|p ps IH]; [reflexivity|].
  cbn [literals_ok forallb subst map]. intros H.
  apply andb_true_iff in H as [Hp Hps].
  fold (subst k v ps). fold (literals_ok (subst k v ps)).
  rewrite (IH Hps), andb_true_r.
  destruct p as [s|k']; [exact Hp|].
  destruct (token_eqb k k'); [exact Hv | reflexivity].
Qed.

Lemma subst_all (a b c : text) (ps : list piece) :
  template_of (subst InterestingFindings c
                 (subst TeamSummaryRows b (subst LastUpdated a ps)))
  = instantiate a b c ps.
Proof.
  unfold template_of, instantiate, subst.
  induction ps as [|p ps IH]; [reflexivity|].
  cbn [map flat_map]. rewrite IH.
  destruct p as [s|[]]; reflexivity.
Qed.

(** ** Decimal numerals and timestamps *)

Lemma stamp_char_no_brace (s : text) :
  forallb stamp_char s = true -> no_brace s = true.
Proof.
  unfold no_brace. induction s as [|c s IH]; [reflexivity|].
  cbn [forallb]. intros H. apply andb_true_iff in H as [Hc Hs].
  rewrite (IH Hs), andb_true_r.
  destruct (Ascii.eqb_spec c brace) as [->|]; [discriminate | reflexivity].
Qed.

Lemma uint_chars (d : Decimal.uint) :
  forallb stamp_char (lit (NilEmpty.string_of_uint d)) = true.
Proof. induction d; simpl; auto. Qed.

Lemma str_int_chars (z : Z) : forallb stamp_char (str_int z) = true.
Proof.
  unfold str_int.
  assert (H : forall d, forallb stamp_char (lit (NilZero.string_of_uint d))
                        = true).
  { intros d. destruct d; try apply (uint_chars (_ d)); reflexivity. }
  destruct z; simpl; auto.
Qed.

Lemma zpad_chars (n : nat) (z : Z) : forallb stamp_char (zpad n z) = true.
Proof.
  unfold zpad. rewrite forallb_app, str_int_chars, andb_true_r.
  induction (n - List.length (str_int z))%nat; simpl; auto.
Qed.

Lemma strftime_chars (t : datetime) : forallb stamp_char (strftime t) = true.
Proof.
  unfold strftime. rewrite !forallb_app, !zpad_chars. reflexivity.
Qed.

Lemma strftime_not_empty (t : datetime) : strftime t <> [].
Proof.
  unfold strftime. destruct (zpad 4 (year t)); discriminate.
Qed.

Lemma strftime_no_double_brace (t : datetime) :
  no_double_brace (strftime t) = true.
Proof.
  apply no_brace_no_double, stamp_char_no_brace, strftime_chars.
Qed.

Lemma strftime_avoids_token (t : datetime) (c : ascii) :
  In c (strftime t) -> ~ In c tok_last_updated.
Proof.
  intros Hc Hin.
  pose proof (strftime_chars t) as H.
  rewrite forallb_forall in H. specialize (H c Hc).
  assert (G : forallb (fun a => negb (stamp_char a)) tok_last_updated = true)
    by reflexivity.
  rewrite forallb_forall in G. specialize (G c Hin).
  rewrite H in G. discriminate.
Qed.

Lemma zpad_digits (width : nat) (bound : Z) (z : Z) :
  forallb (fun i => digits width (zpad width (Z.of_nat i)))
          (seq 0 (Z.to_nat bound))
  = true ->
  0 <= z < bound ->
  digits width (zpad width z) = true.
Proof.
  intros H Hz. rewrite forallb_forall in H.
  rewrite <- (Z2Nat.id z) by lia. apply H. apply in_seq. lia.
Qed.

Lemma zpad2_digits (z : Z) : 0 <= z <= 99 -> digits 2 (zpad 2 z) = true.
Proof.
  intros Hz. apply (zpad_digits 2 100); [vm_compute; reflexivity | lia].
Qed.

Lemma zpad4_digits (z : Z) : 0 <= z <= 9999 -> digits 4 (zpad 4 z) = true.
Proof.
  intros Hz. apply (zpad_digits 4 10000); [vm_compute; reflexivity | lia].
Qed.

Lemma digits_inv2 (s : text) :
  digits 2 s = true ->
  exists a b, s = [a; b] /\ is_digit a = true /\ is_digit b = true.
Proof.
  unfold digits. intros H. apply andb_true_iff in H as [Hl Hd].
  destruct s as [|a [|b [|]]]; try discriminate.
  cbn in Hd. apply andb_true_iff in Hd as [Ha Hb].
  rewrite andb_true_r in Hb. eauto.
Qed.

Lemma digits_inv4 (s : text) :
  digits 4 s = true ->
  exists a b c d, s = [a; b; c; d] /\ forallb is_digit [a; b; c; d] = true.
Proof.
  unfold digits. intros H. apply andb_true_iff in H as [Hl Hd].
  destruct s as [|a [|b [|c [|d [|]]]]]; try discriminate.
  eauto 6.
Qed.

(** The timestamp of a valid time reads YYYY-MM-DD HH:MM:SS. *)
Lemma strftime_shape (t : datetime) :
  valid_datetime t -> timestamp_shaped (strftime t) = true.
Proof.
  intros (Hy & Hm & Hd & Hh & Hi & Hs). unfold strftime.
  destruct (digits_inv4 _ (zpad4_digits (year t) ltac:(lia)))
    as (y1 & y2 & y3 & y4 & -> & Ey).
  destruct (digits_inv2 _ (zpad2_digits (month t) ltac:(lia)))
    as (m1 & m2 & -> & Em1 & Em2).
  destruct (digits_inv2 _ (zpad2_digits (day t) ltac:(lia)))
    as (a1 & a2 & -> & Ea1 & Ea2).
  destruct (digits_inv2 _ (zpad2_digits (hour t) ltac:(lia)))
    as (h1 & h2 & -> & Eh1 & Eh2).
  destruct (digits_inv2 _ (zpad2_digits (minute t) ltac:(lia)))
    as (i1 & i2 & -> & Ei1 & Ei2).
  destruct (digits_inv2 _ (zpad2_digits (second t) ltac:(lia)))
    as (s1 & s2 & -> & Es1 & Es2).
  cbn [forallb] in Ey.
  repeat (apply andb_true_iff in Ey as [? Ey]).
  cbn [app lit list_ascii_of_string timestamp_shaped forallb].
  repeat (apply andb_true_iff; split); auto.
Qed.

(** ** Rendering *)

Lemma str_int_no_double_brace (z : Z) : no_double_brace (str_int z) = true.
Proof. apply no_brace_no_double, stamp_char_no_brace, str_int_chars. Qed.

Lemma str_goals_no_double_brace (b : bool) (z : Z) :
  no_double_brace (str_goals b z) = true.
Proof.
  destruct b; [|apply str_int_no_double_brace].
  unfold str_goals, str_float. apply no_double_brace_app;
    [apply str_int_no_double_brace | reflexivity].
Qed.

Lemma format_2f_no_double_brace (x : float64) :
  no_double_brace (format_2f x) = true.
Proof.
  destruct x as [| |k]; try reflexivity. unfold format_2f.
  apply no_double_brace_app; [apply str_int_no_double_brace|].
  apply no_double_brace_app; [reflexivity|].
  apply no_brace_no_double, stamp_char_no_brace, zpad_chars.
Qed.

Lemma td_no_double_brace (content : text) :
  no_double_brace content = true -> no_double_brace (td content) = true.
Proof.
  intros H. unfold td.
  repeat (apply no_double_brace_app; [try reflexivity; assumption|]).
  reflexivity.
Qed.

Lemma row_html_no_double_brace (b : bool) (row : TeamSummary) :
  no_double_brace (team row) = true ->
  no_double_brace (row_html b row) = true.
Proof.
  intros H. unfold row_html.
  repeat (apply no_double_brace_app;
          [first [reflexivity
                 | apply td_no_double_brace;
                   first [assumption
                         | apply str_int_no_double_brace
                         | apply str_goals_no_double_brace
                         | apply format_2f_no_double_brace]]|]).
  reflexivity.
Qed.

Lemma finding_no_double_brace (top : TeamSummary) :
  no_double_brace (team top) = true -> no_double_brace (finding top) = true.
Proof.
  intros H. unfold finding.
  apply no_double_brace_app; [reflexivity|].
  apply no_double_brace_app; [assumption|].
  apply no_double_brace_app; [reflexivity|].
  apply no_double_brace_app; [apply format_2f_no_double_brace | reflexivity].
Qed.

Lemma names_ok_rows (df : DataFrame) (row : TeamSummary) :
  names_ok df = true -> In row (rows (team_summary_of df)) ->
  no_double_brace (team row) = true.
Proof.
  intros Hn Hrow. apply summary_row_inv in Hrow as [_ Ht].
  apply team_names_all_matches in Ht as (r & Hr & Ht).
  unfold names_ok in Hn. rewrite forallb_forall in Hn.
  specialize (Hn r Hr). apply andb_true_iff in Hn as [Hh Ha].
  destruct Ht as [E|E]; rewrite E in *; assumption.
Qed.

Lemma rows_html_no_double_brace (df : DataFrame) :
  names_ok df = true ->
  no_double_brace (team_summary_rows (team_summary_of df)) = true.
Proof.
  intros Hn. unfold team_summary_rows.
  apply no_double_brace_flat_map. intros row Hrow.
  apply row_html_no_double_brace. now apply (names_ok_rows df).
Qed.

Lemma findings_html_no_double_brace (top : TeamSummary) :
  no_double_brace (team top) = true ->
  no_double_brace (interesting_findings [finding top]) = true.
Proof.
  intros H. unfold interesting_findings. cbn [flat_map].
  rewrite app_nil_r.
  apply no_double_brace_app; [reflexivity|].
  apply no_double_brace_app; [now apply finding_no_double_brace | reflexivity].
Qed.

Lemma instantiate_no_double_brace (a b c : text) (ps : list piece) :
  literals_ok ps = true ->
  no_double_brace a = true -> no_double_brace b = true ->
  no_double_brace c = true ->
  no_double_brace (instantiate a b c ps) = true.
Proof.
  intros Hps Ha Hb Hc. unfold instantiate.
  apply no_double_brace_flat_map. intros p Hp.
  unfold literals_ok in Hps. rewrite forallb_forall in Hps.
  specialize (Hps p Hp). destruct p as [s|[]]; assumption.
Qed.

(** On a template whose literal text has no "{{", and with row fragments
    that have none, the three replacements replace every token by its
    value. *)
Lemma fill_template (now : datetime) (rows_html findings_html : text)
  (ps : list piece) :
  literals_ok ps = true ->
  no_double_brace rows_html = true ->
  fill now rows_html findings_html (template_of ps)
  = instantiate (strftime now) rows_html findings_html ps.
Proof.
  intros Hps Hr. unfold fill.
  change tok_last_updated with (token_text LastUpdated).
  change tok_team_summary_rows with (token_text TeamSummaryRows).
  change tok_interesting_findings with (token_text InterestingFindings).
  rewrite replace_template by exact Hps.
  rewrite replace_template
    by (apply literals_ok_subst;
        [apply strftime_no_double_brace | exact Hps]).
  rewrite replace_template
    by (apply literals_ok_subst; [exact Hr|];
        apply literals_ok_subst;
        [apply strftime_no_double_brace | exact Hps]).
  apply subst_all.
Qed.

(** A text without "{{" goes through the three replacements unchanged. *)
Lemma fill_no_token (now : datetime) (rows_html findings_html html : text) :
  no_double_brace html = true ->
  fill now rows_html findings_html html = html.
Proof.
  intros H. unfold fill.
  rewrite (replace_absent tok_last_updated); [|discriminate|];
  [rewrite (replace_absent tok_team_summary_rows); [|discriminate|];
   [rewrite (replace_absent tok_interesting_findings);
    [reflexivity|discriminate|]|]|];
  now apply no_double_brace_contains.
Qed.

Lemma generate_html_ok (team_summary : SummaryFrame) (findings : list text)
  (output_path : text) (w : World) (template : text) :
  open_read template_path w = Ok template ->
  generate_html team_summary findings output_path w
  = write_text output_path
      (fill (clock w) (team_summary_rows team_summary)
            (interesting_findings findings) template) w.
Proof.
  intros H. unfold generate_html. now rewrite H.
Qed.

Lemma open_read_file (path : text) (w : World) (f : file) (s : text) :
  files w path = Some (File f) -> readable f = true ->
  decode w (content f) = Some s ->
  open_read path w = Ok s.
Proof. intros Hf Hr Hd. unfold open_read. now rewrite Hf, Hr, Hd. Qed.

Lemma write_text_file (path html : text) (w : World) (f : file)
  (stored : text) :
  files w path = Some (File f) -> writable f = true ->
  encode w html = Some stored ->
  write_text path html w
  = Ok (put path (File {| content := stored; readable := readable f;
                          writable := true |}) w).
Proof.
  intros Hf Hw He. unfold write_text, open_write.
  now rewrite Hf, Hw, He.
Qed.

Lemma write_text_inv (path html : text) (w w' : World) :
  write_text path html w = Ok w' ->
  exists f stored,
    open_write path w = Ok f /\ encode w html = Some stored /\
    w' = put path (File {| content := stored; readable := readable f;
                           writable := true |}) w.
Proof.
  unfold write_text. destruct (open_write path w) as [f|e]; cbn [bind];
    [|discriminate].
  destruct (encode w html) as [stored|]; [|discriminate].
  intros H. inversion H. eauto.
Qed.

Lemma files_put (path : text) (n : node) (w : World) :
  files (put path n w) path = Some n.
Proof. simpl. now rewrite text_eqb_refl. Qed.

Lemma files_put_other (path : text) (n : node) (w : World) (p : text) :
  p <> path -> files (put path n w) p = files w p.
Proof.
  intros Hp. simpl. destruct (text_eqb p path) eqn:E; [|reflexivity].
  apply text_eqb_eq in E. contradiction.
Qed.

Lemma main_ok sort_values (w : World) (df : DataFrame) (template : text) :
  sorts_by_win_rate sort_values ->
  remote w CSV_URL = Some df ->
  columns_present df = true ->
  open_read template_path w = Ok template ->
  exists top,
    In top (rows (team_summary_of df)) /\
    (forall row, In row (rows (team_summary_of df)) ->
                 float_leb (win_rate row) (win_rate top) = true) /\
    main sort_values w
    = write_text OUTPUT_PATH
        (fill (clock w) (team_summary_rows (team_summary_of df))
              (interesting_findings [finding top]) template) w.
Proof.
  intros Hs Hr Hc Hf.
  destruct (fetch_ok sort_values df Hs Hc) as (top & rest & E & Hfetch).
  destruct (sorted_head_max sort_values _ top rest Hs E) as [Hin Hmax].
  exists top. split; [exact Hin|]. split; [exact Hmax|].
  unfold main, fetch_and_process_url, read_csv. rewrite Hr. cbn [bind].
  rewrite Hfetch. cbn [bind].
  now apply generate_html_ok.
Qed.

Lemma match_records_present (df : DataFrame) :
  df <> [] -> forallb match_record df = true ->
  columns_present df = true.
Proof.
  destruct df as [|r df]; [congruence|]. intros _ H.
  cbn [forallb] in H. apply andb_true_iff in H as [H _].
  destruct r as [d h a hg ag]. unfold match_record, input_record in H.
  cbn [Date HOME AWAY H_GOALS A_GOALS] in H.
  rewrite !andb_true_iff in H.
  destruct H as (Hd & (((((Hh & _) & Ha) & _) & Hhg) & Hag)).
  destruct d; [|discriminate Hd]. destruct h; [|discriminate Hh].
  destruct a; [|discriminate Ha]. destruct hg; [|discriminate Hhg].
  destruct ag; [|discriminate Hag]. reflexivity.
Qed.

Lemma match_records_dated (df : DataFrame) :
  forallb match_record df = true ->
  forall r, In r df -> notna (Date r) = true.
Proof.
  intros H r Hr. rewrite forallb_forall in H. specialize (H r Hr).
  unfold match_record in H. now apply andb_true_iff in H as [H _].
Qed.

(** ** Substrings *)

Lemma contains_app_r (a b sub : text) :
  contains b sub = true -> contains (a ++ b) sub = true.
Proof.
  intros H. induction a as [|c a IH]; [exact H|].
  cbn [contains app]. rewrite IH. apply orb_true_r.
Qed.

Lemma contains_no_char (x : ascii) (s tail : text) :
  forallb (fun c => negb (Ascii.eqb c x)) s = true ->
  contains s (x :: tail) = false.
Proof.
  induction s as [|c s IH]; intros H; [reflexivity|].
  cbn [forallb] in H. apply andb_true_iff in H as [Hc Hs].
  cbn [contains]. rewrite (IH Hs), orb_false_r.
  apply startswith_head. intros ->. now rewrite Ascii.eqb_refl in Hc.
Qed.

Lemma stamp_char_not (x : ascii) (s : text) :
  stamp_char x = false ->
  forallb stamp_char s = true ->
  forallb (fun c => negb (Ascii.eqb c x)) s = true.
Proof.
  intros Hx. induction s as [|c s IH]; [reflexivity|].
  cbn [forallb]. intros H. apply andb_true_iff in H as [Hc Hs].
  rewrite (IH Hs), andb_true_r.
  destruct (Ascii.eqb_spec c x) as [->|]; [congruence | reflexivity].
Qed.

(** A run of the program that finds index.html readable and writable,
    in a world that can encode every text. *)
Lemma run_on_file sort_values (w : World) (df : DataFrame) (f : file)
  (template : text) :
  sorts_by_win_rate sort_values ->
  remote w CSV_URL = Some df ->
  columns_present df = true ->
  files w template_path = Some (File f) ->
  readable f = true -> writable f = true ->
  decode w (content f) = Some template ->
  (forall s, encode w s <> None) ->
  exists top stored,
    In top (rows (team_summary_of df)) /\
    encode w (fill (clock w) (team_summary_rows (team_summary_of df))
                   (interesting_findings [finding top]) template)
    = Some stored /\
    main sort_values w
    = Ok (put OUTPUT_PATH (File {| content := stored; readable := true;
                                   writable := true |}) w).
Proof.
  intros Hs Hr Hc Hf Hrd Hwr Hdec Henc.
  pose proof (open_read_file _ _ _ _ Hf Hrd Hdec) as Hopen.
  destruct (main_ok sort_values w df _ Hs Hr Hc Hopen)
    as (top & Hin & _ & Hmain).
  destruct (encode w (fill (clock w) (team_summary_rows (team_summary_of df))
                           (interesting_findings [finding top]) template))
    as [stored|] eqn:Es; [|now destruct (Henc _ Es)].
  exists top, stored. split; [exact Hin|]. split; [exact Es|].
  rewrite Hmain, (write_text_file OUTPUT_PATH _ w f stored Hf Hwr Es).
  now rewrite Hrd.
Qed.

(** ** The renderer: claims *)

(** C6 fails as stated: [generate_html] has no timestamp argument.  Called
    twice with the same summary, findings and output path, on the same
    files, it writes two different pages, stamped with the time the clock
    shows at each call. *)
Lemma C6_counterexample :
  files (spec_world noon) = files (spec_world midnight) /\
  exists w1 w2,
    generate_html (team_summary_of one_match) [one_match_finding]
                  OUTPUT_PATH (spec_world noon) = Ok w1 /\
    generate_html (team_summary_of one_match) [one_match_finding]
                  OUTPUT_PATH (spec_world midnight) = Ok w2 /\
    stored_at OUTPUT_PATH w1 <> stored_at OUTPUT_PATH w2 /\
    option_map (fun html => contains html (lit "2024-01-02 12:00:00"))
               (stored_at OUTPUT_PATH w1) = Some true /\
    option_map (fun html => contains html (lit "2024-01-02 12:00:00"))
               (stored_at OUTPUT_PATH w2) = Some false /\
    option_map (fun html => contains html (lit "2024-01-03 00:00:00"))
               (stored_at OUTPUT_PATH w2) = Some true.
Proof.
  split; [reflexivity|].
  eexists. eexists.
  split; [reflexivity|]. split; [reflexivity|].
  split; [vm_compute; discriminate|].
  repeat split; vm_compute; reflexivity.
Qed.

(** C6 (as amended): the render operation takes the summary, the findings
    and the output path, and no timestamp: it reads the template from
    index.html and the current local time from the clock, replaces every
    occurrence of {{last_updated}} in the template by that time formatted
    as YYYY-MM-DD HH:MM:SS, and writes the page to the output path, where
    it is stored when the file can be opened and the page encoded.  The
    leftmost occurrence is replaced and so are those in the rest of the
    text, a template without occurrence is unchanged, and no occurrence is
    left after this replacement. *)
Theorem C6_last_updated_is_the_clock_time
  (team_summary : SummaryFrame) (findings : list text) (output_path : text)
  (w : World) (template : text) :
  printable team_summary = true ->
  open_read template_path w = Ok template ->
  let stamp := strftime (clock w) in
  exists html,
    generate_html team_summary findings output_path w
    = write_text output_path html w /\
    html = replace tok_interesting_findings (interesting_findings findings)
             (replace tok_team_summary_rows (team_summary_rows team_summary)
                (replace tok_last_updated stamp template)) /\
    (forall w', write_text output_path html w = Ok w' ->
                encode w html = stored_at output_path w') /\
    contains (replace tok_last_updated stamp template) tok_last_updated
    = false /\
    (forall pre post,
       (forall i, (i < List.length pre)%nat ->
                  startswith (skipn i (pre ++ tok_last_updated ++ post))
                             tok_last_updated = false) ->
       replace tok_last_updated stamp (pre ++ tok_last_updated ++ post)
       = pre ++ stamp ++ replace tok_last_updated stamp post) /\
    (contains template tok_last_updated = false ->
     replace tok_last_updated stamp template = template) /\
    (valid_datetime (clock w) -> timestamp_shaped stamp = true).
Proof.
  intros _ Hf stamp. eexists.
  split; [apply generate_html_ok; exact Hf|].
  split; [reflexivity|].
  split.
  { intros w' Hw. apply write_text_inv in Hw as (f & stored & _ & -> & ->).
    unfold stored_at. now rewrite files_put. }
  split.
  { apply replace_clears;
      [discriminate | apply strftime_not_empty | apply strftime_avoids_token]. }
  split; [intros pre post; apply replace_leftmost; discriminate|].
  split; [apply replace_absent; discriminate | apply strftime_shape].
Qed.

Lemma C6_witness :
  printable (team_summary_of one_match) = true /\
  open_read template_path (spec_world noon) = Ok spec_template /\
  exists html,
    generate_html (team_summary_of one_match) [one_match_finding]
                  OUTPUT_PATH (spec_world noon)
    = write_text OUTPUT_PATH html (spec_world noon) /\
    contains html (lit "2024-01-02 12:00:00") = true /\
    contains (replace tok_last_updated (strftime noon) spec_template)
             tok_last_updated = false.
Proof.
  split; [reflexivity|]. split; [reflexivity|].
  destruct (C6_last_updated_is_the_clock_time
              (team_summary_of one_match) [one_match_finding] OUTPUT_PATH
              (spec_world noon) spec_template eq_refl eq_refl)
    as (html & Hg & -> & _ & Hc & _).
  eexists. split; [exact Hg|]. split; [vm_compute; reflexivity | exact Hc].
Defined.

(** C7: the replacement of the three tokens is literal and global.  For
    each token the leftmost occurrence is replaced and the rest of the
    text is treated in the same way; on a template whose literal text has
    no "{{" every token is replaced by its value; and rendering
    "<p>{{last_updated}}</p><table>{{team_summary_rows}}</table>
    <ul>{{interesting_findings}}</ul>" with the one-match summary and
    finding gives a page without "{{" and "}}" that contains "A" and
    "1.00", which is what [generate_html] writes to the output path. *)
Theorem C7_replacement_is_literal_and_global :
  (forall tok new pre post : text,
     In tok [tok_last_updated; tok_team_summary_rows;
             tok_interesting_findings] ->
     (forall i, (i < List.length pre)%nat ->
                startswith (skipn i (pre ++ tok ++ post)) tok = false) ->
     replace tok new (pre ++ tok ++ post)
     = pre ++ new ++ replace tok new post) /\
  (forall now rows_html findings_html ps,
     literals_ok ps = true -> no_double_brace rows_html = true ->
     fill now rows_html findings_html (template_of ps)
     = instantiate (strftime now) rows_html findings_html ps) /\
  (forall w output_path,
     open_read template_path w = Ok spec_template ->
     exists html,
       generate_html (team_summary_of one_match) [one_match_finding]
                     output_path w
       = write_text output_path html w /\
       html = lit "<p>" ++ strftime (clock w) ++ lit "</p><table>"
              ++ team_summary_rows (team_summary_of one_match)
              ++ lit "</table><ul><li>" ++ one_match_finding
              ++ lit "</li></ul>" /\
       contains html (lit "{{") = false /\
       contains html (lit "}}") = false /\
       contains html (lit "A") = true /\
       contains html (lit "1.00") = true).
Proof.
  split.
  { intros tok new pre post Htok. apply replace_leftmost.
    destruct Htok as [<-|[<-|[<-|[]]]]; discriminate. }
  split; [exact fill_template|].
  intros w output_path Hf. eexists.
  split; [apply generate_html_ok; exact Hf|].
  assert (E : fill (clock w) (team_summary_rows (team_summary_of one_match))
                (interesting_findings [one_match_finding]) spec_template
              = lit "<p>" ++ strftime (clock w) ++ lit "</p><table>"
                ++ team_summary_rows (team_summary_of one_match)
                ++ lit "</table><ul><li>" ++ one_match_finding
                ++ lit "</li></ul>").
  { change spec_template with (template_of spec_pieces).
    rewrite fill_template by reflexivity. reflexivity. }
  rewrite E. split; [reflexivity|].
  pose proof (strftime_chars (clock w)) as Hs.
  split.
  { apply (contains_no_char "{"). rewrite !forallb_app.
    rewrite (stamp_char_not "{" _ eq_refl Hs). reflexivity. }
  split.
  { apply (contains_no_char "}"). rewrite !forallb_app.
    rewrite (stamp_char_not "}" _ eq_refl Hs). reflexivity. }
  split; do 3 apply contains_app_r; vm_compute; reflexivity.
Qed.

Lemma C7_witness :
  open_read template_path (spec_world noon) = Ok spec_template /\
  exists html,
    generate_html (team_summary_of one_match) [one_match_finding]
                  OUTPUT_PATH (spec_world noon)
    = Ok (put OUTPUT_PATH (plain_file html) (spec_world noon)) /\
    contains html (lit "{{") = false /\
    contains html (lit "1.00") = true.
Proof.
  split; [reflexivity|].
  destruct (proj2 (proj2 C7_replacement_is_literal_and_global)
              (spec_world noon) OUTPUT_PATH eq_refl)
    as (html & Hg & _ & Hb & _ & _ & Hc).
  exists html. split; [rewrite Hg; reflexivity|]. split; assumption.
Defined.

(** C9 fails as stated where it says that the tokens are gone from the
    rendered output: in [token_in_name] the home team is called
    "X{{last_updated}}".  The row fragments are put into the page after
    {{last_updated}} has been replaced, so the page that overwrites
    index.html still has that token, in the team's table cell. *)
Lemma C9_counterexample :
  forallb match_record token_in_name = true /\
  exists page,
    main stable_sort_values
         (world_of noon (Some (plain_file spec_template))
                   (Some token_in_name))
    = Ok (put OUTPUT_PATH (plain_file page)
              (world_of noon (Some (plain_file spec_template))
                        (Some token_in_name))) /\
    contains page tok_last_updated = true /\
    contains page (lit "<td>X{{last_updated}}</td>") = true.
Proof.
  split; [reflexivity|]. eexists.
  split; [vm_compute; reflexivity|].
  split; vm_compute; reflexivity.
Qed.

(** C9 (as amended): the renderer reads its template from "index.html",
    which is also OUTPUT_PATH.  A run of the program on match records that
    finds index.html readable and writable therefore overwrites the
    template with the page it rendered, and the next run reads that page
    as its template.  The tokens are gone from that page when the template
    was pristine (tokens between literal text without "{{") and no team
    name has "{{" or a final "{": then the next run finds nothing to
    replace and writes the same page again, whatever the clock and the
    data then are. *)
Theorem C9_output_overwrites_the_template
  (sort_values : list TeamSummary -> list TeamSummary)
  (w : World) (df : DataFrame) (f : file) (template : text) :
  sorts_by_win_rate sort_values ->
  remote w CSV_URL = Some df ->
  df <> [] -> forallb match_record df = true ->
  files w template_path = Some (File f) ->
  readable f = true -> writable f = true ->
  decode w (content f) = Some template ->
  (forall s, encode w s <> None) ->
  template_path = OUTPUT_PATH /\
  exists top html stored,
    In top (rows (team_summary_of df)) /\
    html = fill (clock w) (team_summary_rows (team_summary_of df))
             (interesting_findings [finding top]) template /\
    encode w html = Some stored /\
    main sort_values w = Ok (put OUTPUT_PATH (plain_file stored) w) /\
    stored_at template_path (put OUTPUT_PATH (plain_file stored) w)
    = Some stored /\
    (forall w' df',
       files w' template_path = Some (plain_file stored) ->
       decode w' stored = Some html ->
       (forall s, encode w' s <> None) ->
       remote w' CSV_URL = Some df' ->
       df' <> [] -> forallb match_record df' = true ->
       exists top' stored',
         encode w' (fill (clock w')
                         (team_summary_rows (team_summary_of df'))
                         (interesting_findings [finding top']) html)
         = Some stored' /\
         main sort_values w' = Ok (put OUTPUT_PATH (plain_file stored') w')) /\
    (forall ps,
       template = template_of ps ->
       literals_ok ps = true ->
       names_ok df = true ->
       html = instantiate (strftime (clock w))
                (team_summary_rows (team_summary_of df))
                (interesting_findings [finding top]) ps /\
       contains html tok_last_updated = false /\
       contains html tok_team_summary_rows = false /\
       contains html tok_interesting_findings = false /\
       forall w' df',
         files w' template_path = Some (plain_file stored) ->
         decode w' stored = Some html ->
         (forall s, encode w' s <> None) ->
         remote w' CSV_URL = Some df' ->
         df' <> [] -> forallb match_record df' = true ->
         exists stored',
           encode w' html = Some stored' /\
           main sort_values w' = Ok (put OUTPUT_PATH (plain_file stored') w')).
Proof.
  intros Hs Hr Hne Hrec Hf Hrd Hwr Hdec Henc. split; [reflexivity|].
  pose proof (match_records_present df Hne Hrec) as Hc.
  destruct (run_on_file sort_values w df f template Hs Hr Hc Hf Hrd Hwr
              Hdec Henc) as (top & stored & Hin & Es & Hmain).
  exists top. eexists. exists stored.
  split; [exact Hin|]. split; [reflexivity|]. split; [exact Es|].
  split; [exact Hmain|].
  split; [unfold stored_at; now rewrite (files_put OUTPUT_PATH)|].
  assert (Hnext : forall w' df',
            files w' template_path = Some (plain_file stored) ->
            decode w' stored
            = Some (fill (clock w) (team_summary_rows (team_summary_of df))
                         (interesting_findings [finding top]) template) ->
            (forall s, encode w' s <> None) ->
            remote w' CSV_URL = Some df' ->
            df' <> [] -> forallb match_record df' = true ->
            exists top' stored',
              encode w' (fill (clock w')
                              (team_summary_rows (team_summary_of df'))
                              (interesting_findings [finding top'])
                              (fill (clock w)
                                    (team_summary_rows (team_summary_of df))
                                    (interesting_findings [finding top])
                                    template))
              = Some stored' /\
              main sort_values w'
              = Ok (put OUTPUT_PATH (plain_file stored') w')).
  { intros w' df' Hf' Hdec' Henc' Hr' Hne' Hrec'.
    pose proof (match_records_present df' Hne' Hrec') as Hc'.
    destruct (run_on_file sort_values w' df' _ _ Hs Hr' Hc' Hf' eq_refl
                eq_refl Hdec' Henc') as (top' & stored' & _ & Es' & Hmain').
    eauto. }
  split; [exact Hnext|].
  intros ps -> Hps Hn.
  pose proof (rows_html_no_double_brace df Hn) as Hrows.
  pose proof (names_ok_rows df top Hn Hin) as Htop.
  rewrite fill_template in * by assumption.
  set (html := instantiate _ _ _ ps) in *.
  assert (Hhtml : no_double_brace html = true).
  { apply instantiate_no_double_brace; auto.
    - apply strftime_no_double_brace.
    - now apply findings_html_no_double_brace. }
  split; [reflexivity|].
  do 3 (split; [now apply no_double_brace_contains|]).
  intros w' df' Hf' Hdec' Henc' Hr' Hne' Hrec'.
  destruct (Hnext w' df' Hf' Hdec' Henc' Hr' Hne' Hrec')
    as (top' & stored' & Es' & Hmain').
  rewrite fill_no_token in Es' by exact Hhtml.
  eauto.
Qed.

Lemma C9_witness :
  sorts_by_win_rate stable_sort_values /\
  remote (spec_world noon) CSV_URL = Some one_match /\
  forallb match_record one_match = true /\
  files (spec_world noon) template_path = Some (plain_file spec_template) /\
  exists html,
    main stable_sort_values (spec_world noon)
    = Ok (put OUTPUT_PATH (plain_file html) (spec_world noon)) /\
    contains html tok_last_updated = false /\
    main stable_sort_values
         (put OUTPUT_PATH (plain_file html) (spec_world midnight))
    = Ok (put OUTPUT_PATH (plain_file html)
              (put OUTPUT_PATH (plain_file html) (spec_world midnight))).
Proof.
  split; [exact stable_sort_values_ok|].
  do 3 (split; [reflexivity|]).
  assert (Henc : forall w : World, encode w = Some ->
                                   forall s, encode w s <> None)
    by (intros w E s; rewrite E; discriminate).
  destruct (C9_output_overwrites_the_template stable_sort_values
              (spec_world noon) one_match _ spec_template
              stable_sort_values_ok eq_refl ltac:(discriminate) eq_refl
              eq_refl eq_refl eq_refl eq_refl
              (Henc (spec_world noon) eq_refl))
    as (_ & top & html & stored & _ & _ & Es & Hmain & _ & _ & Hpristine).
  injection Es as <-.
  exists html. split; [exact Hmain|].
  destruct (Hpristine spec_pieces eq_refl eq_refl eq_refl)
    as (_ & Hgone & _ & _ & Hnext).
  split; [exact Hgone|].
  destruct (Hnext (put OUTPUT_PATH (plain_file html) (spec_world midnight))
              one_match (files_put _ _ _) eq_refl
              (Henc (spec_world midnight) eq_refl) eq_refl
              ltac:(discriminate) eq_refl) as (stored' & Es' & Hmain').
  injection Es' as <-. exact Hmain'.
Defined.

(** * Further properties of the code *)

(** ** The order on text *)


Lemma text_leb_total (a b : text) :
  text_leb a b = false -> text_leb b a = true.
Proof.
  revert b; induction a as [|x a IH]; intros [|y b]; simpl;
    try discriminate; try reflexivity.
  rewrite (Ascii.compare_antisym y x).
  destruct (Ascii.compare x y); simpl; auto; discriminate.
Qed.


Lemma text_leb_trans (a b c : text) :
  text_leb a b = true -> text_leb b c = true -> text_leb a c = true.
Proof.
  revert b c; induction a as [|x a IH]; intros [|y b] [|z c]; simpl;
    try discriminate; try reflexivity.
  unfold Ascii.compare.
  destruct (N.compare_spec (N_of_ascii x) (N_of_ascii y));
    destruct (N.compare_spec (N_of_ascii y) (N_of_ascii z));
    destruct (N.compare_spec (N_of_ascii x) (N_of_ascii z));
    try discriminate; try reflexivity; try lia.
  apply IH.
Qed.

Lemma insert_key_sorted (k : text) (l : list text) :
  StronglySorted (fun a b => text_leb a b = true) l ->
  StronglySorted (fun a b => text_leb a b = true) (insert_key k l).
Proof.
  induction 1 as [|x l Hs IH Hx]; simpl.
  - repeat constructor.
  - destruct (text_leb k x) eqn:E.
    + constructor; [now constructor|].
      constructor; [exact E|].
      eapply Forall_impl; [|exact Hx].
      intros y Hy. eapply text_leb_trans; eauto.
    + constructor; [exact IH|].
      eapply Permutation_Forall; [apply insert_key_perm|].
      constructor; [now apply text_leb_total | exact Hx].
Qed.

Lemma sort_keys_sorted (l : list text) :
  StronglySorted (fun a b => text_leb a b = true) (sort_keys l).
Proof.
  induction l as [|k l IH]; simpl; [constructor|].
  now apply insert_key_sorted.
Qed.


(** ** Reordering the input *)







(** X2: for a frame whose team names read as text, the rows of the
    summary are in increasing order of team name (the order of [groupby],
    which compares the names as strings), whatever the win rates are, and
    no name comes twice. *)
Theorem X2_rows_sorted_by_team (df : DataFrame) :
  text_names df = true ->
  StronglySorted (fun a b => text_leb a b = true)
                 (map team (rows (team_summary_of df))) /\
  NoDup (map team (rows (team_summary_of df))).
Proof.
  intros _. cbn [rows team_summary_of]. rewrite summary_teams. split.
  - apply sort_keys_sorted.
  - apply group_keys_NoDup.
Qed.

Lemma X2_witness :
  text_names away_and_home = true /\
  map team (rows (team_summary_of away_and_home)) = [lit "A"; lit "B"] /\
  StronglySorted (fun a b => text_leb a b = true)
                 (map team (rows (team_summary_of away_and_home))).
Proof.
  split; [reflexivity|]. split; [reflexivity|].
  exact (proj1 (X2_rows_sorted_by_team away_and_home eq_refl)).
Defined.

(** ** Outcomes *)


(** ** Aggregates *)

Lemma all_matches_concat (df1 df2 : DataFrame) :
  Permutation (all_matches (df1 ++ df2)) (all_matches df1 ++ all_matches df2).
Proof.
  unfold all_matches. rewrite !map_app, <- !app_assoc.
  apply Permutation_app_head.
  rewrite !app_assoc. apply Permutation_app_tail, Permutation_app_comm.
Qed.

Lemma sum_filter_app {B} (f : B -> Z) (p : B -> bool) (m1 m2 : list B) :
  sum (map f (filter p (m1 ++ m2)))
  = sum (map f (filter p m1)) + sum (map f (filter p m2)).
Proof. now rewrite filter_app, map_app, sum_app. Qed.

Lemma goal_mass_app (df1 df2 : DataFrame) :
  goal_mass (df1 ++ df2) = goal_mass df1 + goal_mass df2.
Proof. unfold goal_mass. now rewrite map_app, sum_app. Qed.

Lemma goal_mass_nonneg (df : DataFrame) : 0 <= goal_mass df.
Proof. unfold goal_mass. induction df as [|r df IH]; simpl; lia. Qed.

(** X4: counts and sums add up over inputs.  For frames whose team names
    read as text and whose goal values add up to less than 2^53 in
    absolute value (so that no int64 sum wraps around and no float64 sum
    is rounded), and for every team, the matches played, the goals for,
    the goals against and the wins computed from the records of two frames
    together are the sums of what each frame gives. *)
Theorem X4_aggregates_add_up (df1 df2 : DataFrame) (t : text) :
  text_names (df1 ++ df2) = true ->
  goal_mass (df1 ++ df2) < 2 ^ 53 ->
  let s := summarize (existsb goal_missing (df1 ++ df2))
                     (all_matches (df1 ++ df2)) t in
  let s1 := summarize (existsb goal_missing df1) (all_matches df1) t in
  let s2 := summarize (existsb goal_missing df2) (all_matches df2) t in
  matches_played s = matches_played s1 + matches_played s2 /\
  total_goals_for s = total_goals_for s1 + total_goals_for s2 /\
  total_goals_against s = total_goals_against s1 + total_goals_against s2 /\
  total_wins s = total_wins s1 + total_wins s2.
Proof.
  intros _ Hm s s1 s2. subst s s1 s2.
  pose proof (all_matches_concat df1 df2) as Hp.
  rewrite goal_mass_app in Hm.
  pose proof (goal_mass_nonneg df1). pose proof (goal_mass_nonneg df2).
  destruct (summarize_goals_exact (existsb goal_missing (df1 ++ df2))
              (df1 ++ df2) t) as [F A];
    [rewrite goal_mass_app; lia|].
  destruct (summarize_goals_exact (existsb goal_missing df1) df1 t)
    as [F1 A1]; [lia|].
  destruct (summarize_goals_exact (existsb goal_missing df2) df2 t)
    as [F2 A2]; [lia|].
  rewrite F, A, F1, A1, F2, A2.
  rewrite !(proj1 (summarize_fields _ _ _)).
  rewrite !(proj2 (proj2 (proj2 (summarize_fields _ _ _)))).
  rewrite !(sum_filter_perm _ (in_group t) _ _ Hp), !sum_filter_app.
  repeat split; reflexivity.
Qed.

Lemma X4_witness :
  text_names ([drawn_match] ++ one_match) = true /\
  goal_mass ([drawn_match] ++ one_match) < 2 ^ 53 /\
  total_goals_for (summarize false (all_matches ([drawn_match] ++ one_match))
                             (lit "A"))
  = 1 + 2.
Proof.
  split; [reflexivity|]. split; [reflexivity|].
  exact (proj1 (proj2 (X4_aggregates_add_up [drawn_match] one_match (lit "A")
                         eq_refl eq_refl))).
Defined.

Lemma sum_map_ext_in {B} (f g : B -> Z) (l : list B) :
  (forall x, In x l -> f x = g x) -> sum (map f l) = sum (map g l).
Proof.
  intros H. f_equal. apply map_ext_in. exact H.
Qed.

Lemma sum_ones {B} (l : list B) :
  sum (map (fun _ => 1) l) = Z.of_nat (List.length l).
Proof.
  induction l as [|x l IH]; [reflexivity|].
  cbn [map sum fold_right List.length]. rewrite Nat2Z.inj_succ.
  fold (sum (map (fun _ : B => 1) l)). lia.
Qed.

Lemma sum_rows (f : TeamSummary -> Z) (g : TeamOutcome -> Z)
  (df : DataFrame) :
  (forall b m t, f (summarize b m t) = sum (map g (filter (in_group t) m))) ->
  (forall r, In r df -> notna (HOME r) = true /\ notna (AWAY r) = true) ->
  sum (map f (rows (team_summary_of df)))
  = sum (map (fun r => g (home_row r)) df)
    + sum (map (fun r => g (away_row r)) df).
Proof.
  intros Hf Hn. cbn [rows team_summary_of]. unfold team_summary_rows_of.
  rewrite map_map.
  erewrite map_ext by (intros t; apply Hf).
  rewrite sum_all_groups; [apply sum_all_matches|].
  intros o Ho.
  apply all_matches_outcome in Ho as (r & Hr & [-> | ->]);
    simpl; now apply Hn.
Qed.

(** X5: when every record carries a date and both team names, the
    matches_played of all rows add up to twice the number of records:
    each match is counted once for each of its two teams. *)
Theorem X5_matches_counted_twice (df : DataFrame) :
  (forall r, In r df ->
     notna (Date r) = true /\ notna (HOME r) = true /\
     notna (AWAY r) = true) ->
  sum (map matches_played (rows (team_summary_of df)))
  = 2 * Z.of_nat (List.length df).
Proof.
  intros H.
  rewrite (sum_rows matches_played
             (fun o => if notna (o_Date o) then 1 else 0)).
  - assert (E : forall side : MatchRecord -> TeamOutcome,
               (forall r, o_Date (side r) = Date r) ->
               sum (map (fun r => if notna (o_Date (side r)) then 1 else 0) df)
               = Z.of_nat (List.length df)).
    { intros side Hside.
      rewrite (sum_map_ext_in _ (fun _ => 1)); [apply sum_ones|].
      intros r Hr. now rewrite Hside, (proj1 (H r Hr)). }
    rewrite (E home_row), (E away_row) by reflexivity. lia.
  - intros b m t. apply (summarize_fields b m t).
  - intros r Hr. split; apply (H r Hr).
Qed.

Lemma X5_witness :
  (forall r, In r home_and_away ->
     notna (Date r) = true /\ notna (HOME r) = true /\
     notna (AWAY r) = true) /\
  sum (map matches_played (rows (team_summary_of home_and_away))) = 2 * 2.
Proof.
  assert (H : forall r, In r home_and_away ->
     notna (Date r) = true /\ notna (HOME r) = true /\
     notna (AWAY r) = true)
    by (intros r [<-|[<-|[]]]; repeat split; reflexivity).
  split; [exact H | exact (X5_matches_counted_twice home_and_away H)].
Defined.





(** ** Errors of the aggregator *)

(** X7: [fetch_and_process_data] fails in two ways only.  It fails with
    what [pd.read_csv] raises when the CSV cannot be read, and once the
    frame is read it fails with KeyError, exactly when one of the five
    columns has no value in any record (a frame without records included).
    On every other frame it returns a summary and one finding: the
    selection of the first row at line 51 never raises IndexError. *)
Theorem X7_aggregator_errors
  (sort_values : list TeamSummary -> list TeamSummary) (csv_url : text)
  (w : World) :
  sorts_by_win_rate sort_values ->
  (remote w csv_url = None ->
   fetch_and_process_url sort_values csv_url w = Err FetchError) /\
  (forall df,
     remote w csv_url = Some df ->
     fetch_and_process_url sort_values csv_url w
     = fetch_and_process_data sort_values df /\
     (columns_present df = false ->
      fetch_and_process_data sort_values df = Err KeyError) /\
     (columns_present df = true ->
      exists top,
        fetch_and_process_data sort_values df
        = Ok (team_summary_of df, [finding top]))) /\
  (forall e,
     fetch_and_process_url sort_values csv_url w = Err e ->
     (e = FetchError /\ remote w csv_url = None) \/
     (e = KeyError /\
      exists df, remote w csv_url = Some df /\ columns_present df = false)).
Proof.
  intros Hs.
  assert (Hok : forall df, columns_present df = true ->
                exists top, fetch_and_process_data sort_values df
                            = Ok (team_summary_of df, [finding top])).
  { intros df Hc.
    destruct (fetch_ok sort_values df Hs Hc) as (top & _ & _ & E).
    now exists top. }
  assert (Hko : forall df, columns_present df = false ->
                fetch_and_process_data sort_values df = Err KeyError).
  { intros df Hc. unfold fetch_and_process_data. now rewrite Hc. }
  unfold fetch_and_process_url, read_csv.
  destruct (remote w csv_url) as [df|]; cbn [bind].
  - split; [discriminate|]. split.
    + intros df' E. inversion E; subst. auto.
    + intros e He. right. destruct (columns_present df) eqn:Hc.
      * destruct (Hok df Hc) as [top E]. congruence.
      * rewrite (Hko df Hc) in He. split; [congruence | eauto].
  - split; [reflexivity|]. split; [discriminate|].
    intros e He. left. split; [congruence | reflexivity].
Qed.

Lemma X7_witness :
  sorts_by_win_rate stable_sort_values /\
  fetch_and_process_url stable_sort_values CSV_URL offline_world
  = Err FetchError /\
  fetch_and_process_url stable_sort_values CSV_URL
    (world_of noon None (Some goals_column_missing))
  = Err KeyError.
Proof.
  split; [exact stable_sort_values_ok|].
  split.
  - exact (proj1 (X7_aggregator_errors stable_sort_values CSV_URL
                    offline_world stable_sort_values_ok) eq_refl).
  - destruct (proj1 (proj2 (X7_aggregator_errors stable_sort_values CSV_URL
                              (world_of noon None (Some goals_column_missing))
                              stable_sort_values_ok))
                goals_column_missing eq_refl) as (E & Hko & _).
    rewrite E. exact (Hko eq_refl).
Defined.

(** ** Ties *)

Lemma float_leb_antisym (a b : float64) :
  float_leb a b = true -> float_leb b a = true -> a = b.
Proof.
  destruct a, b; simpl; try discriminate; try reflexivity.
  rewrite !Z.leb_le. intros. f_equal. lia.
Qed.

Lemma insert_row_after_perm (r : TeamSummary) (l : list TeamSummary) :
  Permutation (r :: l) (insert_row_after r l).
Proof.
  induction l as [|x l IH]; simpl; [reflexivity|].
  destruct (float_leb (win_rate r) (win_rate x)); [|reflexivity].
  rewrite perm_swap. now constructor.
Qed.

Lemma insert_row_after_sorted (r : TeamSummary) (l : list TeamSummary) :
  StronglySorted rate_ge l -> StronglySorted rate_ge (insert_row_after r l).
Proof.
  induction 1 as [|x l Hs IH Hx]; simpl.
  - repeat constructor.
  - destruct (float_leb (win_rate r) (win_rate x)) eqn:E.
    + constructor; [exact IH|].
      eapply Permutation_Forall; [apply insert_row_after_perm|].
      constructor; [exact E | exact Hx].
    + apply float_leb_total in E.
      constructor; [now constructor|].
      constructor; [exact E|].
      eapply Forall_impl; [|exact Hx].
      intros y Hy. unfold rate_ge in *. eapply float_leb_trans; eauto.
Qed.

Lemma reversing_sort_values_ok : sorts_by_win_rate reversing_sort_values.
Proof.
  intros l. unfold reversing_sort_values.
  induction l as [|r l [IHp IHs]]; simpl.
  - split; constructor.
  - split.
    + rewrite <- insert_row_after_perm. now constructor.
    + now apply insert_row_after_sorted.
Qed.

(** X8: how [sort_values] orders rows of equal win_rate changes only the
    team that the finding names.  In two runs on the same frame with two
    such sorts, the two named teams are rows of the summary with the same
    win_rate, which no row exceeds, and each is the home or away team of
    some record. *)
Theorem X8_ties_change_only_the_name
  (sort1 sort2 : list TeamSummary -> list TeamSummary) (df : DataFrame)
  (ts1 ts2 : SummaryFrame) (fs1 fs2 : list text) :
  sorts_by_win_rate sort1 -> sorts_by_win_rate sort2 ->
  fetch_and_process_data sort1 df = Ok (ts1, fs1) ->
  fetch_and_process_data sort2 df = Ok (ts2, fs2) ->
  exists top1 top2,
    fs1 = [finding top1] /\ fs2 = [finding top2] /\
    In top1 (rows ts1) /\ In top2 (rows ts1) /\
    win_rate top1 = win_rate top2 /\
    (forall row, In row (rows ts1) ->
                 float_leb (win_rate row) (win_rate top1) = true) /\
    (exists r, In r df /\
               (HOME r = Some (team top1) \/ AWAY r = Some (team top1))) /\
    (exists r, In r df /\
               (HOME r = Some (team top2) \/ AWAY r = Some (team top2))).
Proof.
  intros Hs1 Hs2 H1 H2.
  apply fetch_ok_inv in H1 as (_ & -> & top1 & rest1 & E1 & ->).
  apply fetch_ok_inv in H2 as (_ & -> & top2 & rest2 & E2 & ->).
  destruct (sorted_head_max sort1 _ top1 rest1 Hs1 E1) as [In1 Max1].
  destruct (sorted_head_max sort2 _ top2 rest2 Hs2 E2) as [In2 Max2].
  exists top1, top2. repeat (split; [assumption || reflexivity|]).
  split; [apply float_leb_antisym; auto|].
  split; [exact Max1|].
  split.
  - apply summary_row_inv in In1 as [_ Ht].
    now apply team_names_all_matches.
  - apply summary_row_inv in In2 as [_ Ht].
    now apply team_names_all_matches.
Qed.

(** After a draw both teams have win_rate 0.00: one sort names A, the
    other names B. *)
Lemma X8_witness :
  sorts_by_win_rate stable_sort_values /\
  sorts_by_win_rate reversing_sort_values /\
  fetch_and_process_data stable_sort_values [drawn_match]
  = Ok (team_summary_of [drawn_match],
        [lit "The team with the highest win rate is A with a win rate of 0.00."])
  /\
  fetch_and_process_data reversing_sort_values [drawn_match]
  = Ok (team_summary_of [drawn_match],
        [lit "The team with the highest win rate is B with a win rate of 0.00."])
  /\
  exists top1 top2,
    team top1 = lit "A" /\ team top2 = lit "B" /\
    win_rate top1 = win_rate top2.
Proof.
  split; [exact stable_sort_values_ok|].
  split; [exact reversing_sort_values_ok|].
  assert (E1 : fetch_and_process_data stable_sort_values [drawn_match]
               = Ok (team_summary_of [drawn_match],
                     [finding (summarize false (all_matches [drawn_match])
                                         (lit "A"))]))
    by (vm_compute; reflexivity).
  assert (E2 : fetch_and_process_data reversing_sort_values [drawn_match]
               = Ok (team_summary_of [drawn_match],
                     [finding (summarize false (all_matches [drawn_match])
                                         (lit "B"))]))
    by (vm_compute; reflexivity).
  split; [rewrite E1; vm_compute; reflexivity|].
  split; [rewrite E2; vm_compute; reflexivity|].
  destruct (X8_ties_change_only_the_name stable_sort_values
              reversing_sort_values [drawn_match] _ _ _ _
              stable_sort_values_ok reversing_sort_values_ok E1 E2)
    as (top1 & top2 & F1 & F2 & In1 & In2 & Hrate & _).
  exists (summarize false (all_matches [drawn_match]) (lit "A")),
         (summarize false (all_matches [drawn_match]) (lit "B")).
  split; [reflexivity|]. split; [reflexivity|].
  vm_compute. reflexivity.
Defined.

(** ** Size of the summary *)

Lemma team_names_length (m : list TeamOutcome) :
  (List.length (team_names m) <= List.length m)%nat.
Proof.
  unfold team_names. induction m as [|o m IH]; [reflexivity|].
  cbn [flat_map]. rewrite length_app.
  destruct (TEAM o); simpl; lia.
Qed.

Lemma all_matches_length (df : DataFrame) :
  List.length (all_matches df) = (2 * List.length df)%nat.
Proof.
  unfold all_matches. rewrite length_app, !length_map. lia.
Qed.

(** X9: when the aggregator returns, the summary has at least one row and
    at most two rows per record, and there is exactly one finding. *)
Theorem X9_size_of_the_result
  (sort_values : list TeamSummary -> list TeamSummary) (df : DataFrame)
  (ts : SummaryFrame) (fs : list text) :
  fetch_and_process_data sort_values df = Ok (ts, fs) ->
  (1 <= List.length (rows ts) <= 2 * List.length df)%nat /\
  List.length fs = 1%nat.
Proof.
  intros H. apply fetch_ok_inv in H as (Hc & -> & top & rest & _ & ->).
  split; [|reflexivity]. split.
  - apply columns_present_rows in Hc.
    destruct (rows (team_summary_of df)); [contradiction | simpl; lia].
  - cbn [rows team_summary_of]. unfold team_summary_rows_of.
    rewrite length_map, <- all_matches_length.
    etransitivity; [|apply team_names_length].
    apply NoDup_incl_length; [apply group_keys_NoDup|].
    intros t. apply group_keys_In.
Qed.

Lemma X9_witness :
  fetch_and_process_data stable_sort_values one_match
  = Ok (team_summary_of one_match, [one_match_finding]) /\
  (1 <= List.length (rows (team_summary_of one_match)) <= 2 * 1)%nat.
Proof.
  assert (E : fetch_and_process_data stable_sort_values one_match
              = Ok (team_summary_of one_match, [one_match_finding]))
    by (vm_compute; reflexivity).
  split; [exact E|].
  exact (proj1 (X9_size_of_the_result stable_sort_values one_match _ _ E)).
Defined.

(** ** Extreme win rates *)

Lemma rint_div_exact (c d : Z) : 0 < d -> rint_div (c * d) d = c.
Proof.
  intros Hd. unfold rint_div.
  rewrite Z.div_mul, Z.mod_mul by lia.
  destruct (Z.compare_spec (2 * 0) d); lia.
Qed.

Lemma fdiv_same (m : Z) :
  0 < m -> fdiv m m = {| mant := 2 ^ 52; expo := -52 |}.
Proof.
  intros Hm. unfold fdiv, round_b64.
  destruct (Z.eqb_spec m 0) as [|_]; [lia|].
  replace (Z.log2 m - Z.log2 m - 52) with (-52) by lia.
  change (Z.max 0 (-52)) with 0. change (Z.max 0 (- -52)) with 52.
  change (2 ^ 0) with 1.
  destruct (Z.leb_spec (2 ^ 52 * (m * 1)) (m * 2 ^ 52)) as [_|H]; [|lia].
  change (Z.max 0 (-52)) with 0. change (Z.max 0 (- -52)) with 52.
  change (2 ^ 0) with 1.
  f_equal. rewrite Z.mul_1_r, Z.mul_comm. now apply rint_div_exact.
Qed.

Lemma div_round2_extremes (m : Z) :
  0 < m ->
  div_round2 m m = Hundredths 100 /\ div_round2 0 m = Hundredths 0.
Proof.
  intros Hm. unfold div_round2.
  destruct (Z.eqb_spec m 0) as [|_]; [lia|].
  rewrite (fdiv_same m Hm). split; vm_compute; reflexivity.
Qed.

(** X10: in the summary the aggregator returns, a row whose total_wins
    equals its matches_played, the latter not being 0, has win_rate 1.00,
    and a row with total_wins 0 and matches_played not 0 has win_rate
    0.00; they are shown as "1.00" and "0.00". *)
Theorem X10_extreme_win_rates
  (sort_values : list TeamSummary -> list TeamSummary) (df : DataFrame)
  (ts : SummaryFrame) (fs : list text) (row : TeamSummary) :
  fetch_and_process_data sort_values df = Ok (ts, fs) ->
  In row (rows ts) ->
  0 < matches_played row ->
  (total_wins row = matches_played row ->
   win_rate row = Hundredths 100 /\ format_2f (win_rate row) = lit "1.00") /\
  (total_wins row = 0 ->
   win_rate row = Hundredths 0 /\ format_2f (win_rate row) = lit "0.00").
Proof.
  intros H Hrow Hpos. apply fetch_ok_inv in H as (_ & -> & _).
  apply summary_row_inv in Hrow as [Erow _].
  assert (Hrate : win_rate row
                  = div_round2 (total_wins row) (matches_played row))
    by (rewrite Erow at 1; unfold summarize; cbn; now rewrite Erow).
  destruct (div_round2_extremes _ Hpos) as [Hall Hnone].
  split; intros Hw; rewrite Hrate, Hw.
  - rewrite Hall. split; reflexivity.
  - rewrite Hnone. split; reflexivity.
Qed.

Lemma X10_witness :
  fetch_and_process_data stable_sort_values one_match
  = Ok (team_summary_of one_match, [one_match_finding]) /\
  win_rate (summarize false (all_matches one_match) (lit "A"))
  = Hundredths 100.
Proof.
  assert (E : fetch_and_process_data stable_sort_values one_match
              = Ok (team_summary_of one_match, [one_match_finding]))
    by (vm_compute; reflexivity).
  split; [exact E|].
  refine (proj1 (proj1 (X10_extreme_win_rates stable_sort_values one_match
                          _ _ (summarize false (all_matches one_match)
                                         (lit "A"))
                          E _ _) _)).
  - vm_compute. now left.
  - vm_compute. reflexivity.
  - vm_compute. reflexivity.
Defined.

(** ** Substrings, continued *)

Lemma contains_self (sub post : text) : contains (sub ++ post) sub = true.
Proof.
  destruct (sub ++ post) eqn:E; cbn [contains];
    rewrite <- E, startswith_app; reflexivity.
Qed.

Lemma contains_middle (pre sub post : text) :
  contains (pre ++ sub ++ post) sub = true.
Proof. apply contains_app_r, contains_self. Qed.

Lemma contains_inv (s sub : text) :
  contains s sub = true -> exists pre post, s = pre ++ sub ++ post.
Proof.
  induction s as [|c s IH]; cbn [contains]; intros H.
  - rewrite orb_false_r in H. apply startswith_inv in H as [r E].
    exists [], r. exact E.
  - apply orb_true_iff in H as [H|H].
    + apply startswith_inv in H as [r E]. exists [], r. exact E.
    + destruct (IH H) as (pre & post & ->). now exists (c :: pre), post.
Qed.

Lemma contains_trans (a b c : text) :
  contains a b = true -> contains b c = true -> contains a c = true.
Proof.
  intros Hab Hbc.
  apply contains_inv in Hab as (p1 & q1 & ->).
  apply contains_inv in Hbc as (p2 & q2 & ->).
  replace (p1 ++ (p2 ++ c ++ q2) ++ q1)
    with ((p1 ++ p2) ++ c ++ (q2 ++ q1))
    by (now rewrite <- !app_assoc).
  apply contains_middle.
Qed.

Lemma contains_flat_map {A} (f : A -> text) (l : list A) (x : A) :
  In x l -> contains (flat_map f l) (f x) = true.
Proof.
  intros H. apply in_split in H as (l1 & l2 & ->).
  rewrite flat_map_app. cbn [flat_map]. apply contains_middle.
Qed.

(** ** The renderer: errors and effects *)

Lemma write_text_frame (path html : text) (w w' : World) :
  write_text path html w = Ok w' ->
  (forall p, p <> path -> files w' p = files w p) /\
  clock w' = clock w /\ remote w' = remote w.
Proof.
  intros H. apply write_text_inv in H as (f & stored & _ & _ & ->).
  split; [|split; reflexivity].
  intros p Hp. now apply files_put_other.
Qed.

Lemma generate_html_frame (team_summary : SummaryFrame) (findings : list text)
  (output_path : text) (w w' : World) :
  generate_html team_summary findings output_path w = Ok w' ->
  (forall p, p <> output_path -> files w' p = files w p) /\
  clock w' = clock w /\ remote w' = remote w.
Proof.
  unfold generate_html.
  destruct (open_read template_path w) as [template|e]; cbn [bind];
    [|discriminate].
  apply write_text_frame.
Qed.



(** X12: a template in which none of the three tokens occurs goes to the
    output as it was read: the text written is the text read, nothing of
    the summary or the findings is rendered, and the only errors are those
    of reading the template and of writing the output. *)
Theorem X12_template_without_tokens
  (team_summary : SummaryFrame) (findings : list text) (output_path : text)
  (w : World) (template : text) :
  open_read template_path w = Ok template ->
  contains template tok_last_updated = false ->
  contains template tok_team_summary_rows = false ->
  contains template tok_interesting_findings = false ->
  generate_html team_summary findings output_path w
  = write_text output_path template w.
Proof.
  intros Hf H1 H2 H3. rewrite (generate_html_ok _ _ _ _ _ Hf).
  unfold fill.
  rewrite (replace_absent tok_last_updated) by (discriminate || exact H1).
  rewrite (replace_absent tok_team_summary_rows)
    by (discriminate || exact H2).
  rewrite (replace_absent tok_interesting_findings)
    by (discriminate || exact H3).
  reflexivity.
Qed.

Lemma X12_witness :
  open_read template_path plain_world = Ok (lit "<p>closed</p>") /\
  generate_html (team_summary_of one_match) [one_match_finding] OUTPUT_PATH
                plain_world
  = Ok (put OUTPUT_PATH (plain_file (lit "<p>closed</p>")) plain_world).
Proof.
  split; [reflexivity|].
  rewrite (X12_template_without_tokens (team_summary_of one_match)
             [one_match_finding] OUTPUT_PATH plain_world (lit "<p>closed</p>")
             eq_refl eq_refl eq_refl eq_refl).
  reflexivity.
Defined.

(** X13: the program fails with FetchError when the CSV cannot be read,
    else with KeyError when a column of the frame has no value (even when
    index.html is missing as well: the data is processed before the
    template is opened), else with FileNotFoundError when index.html is
    missing.  When it succeeds it has changed no file but the one at
    OUTPUT_PATH. *)
Theorem X13_program_errors
  (sort_values : list TeamSummary -> list TeamSummary) (w : World) :
  sorts_by_win_rate sort_values ->
  (remote w CSV_URL = None -> main sort_values w = Err FetchError) /\
  (forall df,
     remote w CSV_URL = Some df -> columns_present df = false ->
     main sort_values w = Err KeyError) /\
  (forall df,
     remote w CSV_URL = Some df -> columns_present df = true ->
     files w template_path = None ->
     main sort_values w = Err FileNotFoundError) /\
  (forall w',
     main sort_values w = Ok w' ->
     (forall p, p <> OUTPUT_PATH -> files w' p = files w p) /\
     clock w' = clock w /\ remote w' = remote w).
Proof.
  intros Hs. unfold main, fetch_and_process_url, read_csv.
  destruct (remote w CSV_URL) as [df|]; cbn [bind].
  - split; [discriminate|].
    split.
    { intros df' E Hc. inversion E; subst.
      unfold fetch_and_process_data. now rewrite Hc. }
    split.
    { intros df' E Hc Hf. inversion E; subst.
      destruct (fetch_ok sort_values df' Hs Hc) as (top & _ & _ & ->).
      cbn [bind]. unfold generate_html, open_read. now rewrite Hf. }
    intros w' H.
    destruct (fetch_and_process_data sort_values df) as [[ts fs]|e];
      cbn [bind] in H; [|discriminate].
    destruct (generate_html_frame ts fs OUTPUT_PATH w w' H) as (Hp & Hc & Hr).
    auto.
  - split; [reflexivity|].
    split; [discriminate|]. split; [discriminate|]. discriminate.
Qed.

Lemma X13_witness :
  sorts_by_win_rate stable_sort_values /\
  main stable_sort_values offline_world = Err FetchError /\
  main stable_sort_values no_template_world = Err FileNotFoundError.
Proof.
  split; [exact stable_sort_values_ok|]. split.
  - exact (proj1 (X13_program_errors stable_sort_values offline_world
                    stable_sort_values_ok) eq_refl).
  - exact (proj1 (proj2 (proj2
             (X13_program_errors stable_sort_values no_template_world
                stable_sort_values_ok))) one_match eq_refl eq_refl eq_refl).
Defined.

(** ** What the page shows *)

Lemma td_contains (content : text) :
  contains (td content) (lit "<td>" ++ content ++ lit "</td>") = true.
Proof.
  unfold td. apply contains_app_r.
  replace (lit "<td>" ++ content ++ lit "</td>" ++ nl)
    with ((lit "<td>" ++ content ++ lit "</td>") ++ nl)
    by (now rewrite <- !app_assoc).
  apply contains_self.
Qed.

Lemma row_html_contains_team (b : bool) (row : TeamSummary) :
  contains (row_html b row) (td (team row)) = true.
Proof.
  unfold row_html. do 4 apply contains_app_r. apply contains_self.
Qed.

Lemma row_html_contains_goals (b : bool) (row : TeamSummary) :
  contains (row_html b row) (td (str_goals b (total_goals_for row))) = true /\
  contains (row_html b row) (td (str_goals b (total_goals_against row)))
  = true.
Proof.
  unfold row_html. split.
  - do 6 apply contains_app_r. apply contains_self.
  - do 7 apply contains_app_r. apply contains_self.
Qed.

Lemma rows_html_contains_row (ts : SummaryFrame) (row : TeamSummary) :
  In row (rows ts) ->
  contains (team_summary_rows ts) (row_html (goals_are_float ts) row) = true.
Proof. intros H. unfold team_summary_rows. now apply contains_flat_map. Qed.

Lemma row_of_team (df : DataFrame) (r : MatchRecord) (t : text) :
  In r df -> HOME r = Some t \/ AWAY r = Some t ->
  exists row, In row (rows (team_summary_of df)) /\ team row = t.
Proof.
  intros Hr Ht.
  exists (summarize (existsb goal_missing df) (all_matches df) t).
  split; [|reflexivity].
  cbn [rows team_summary_of]. unfold team_summary_rows_of.
  apply in_map, group_keys_In, team_names_all_matches. eauto.
Qed.

Lemma instantiate_contains (a b c : text) (ps : list piece) (p : piece) :
  In p ps ->
  contains (instantiate a b c ps)
           (match p with
            | Lit s => s
            | Tok LastUpdated => a
            | Tok TeamSummaryRows => b
            | Tok InterestingFindings => c
            end) = true.
Proof.
  intros H. unfold instantiate.
  exact (contains_flat_map _ ps p H).
Qed.

(** X14: on match records whose team names have no "{{" and no final
    "{", and with a template that reads as tokens between literal text
    without "{{", the page that the program writes to OUTPUT_PATH keeps
    every literal part of the template and shows, where the template has
    the token for it, the time of the clock, every team of the input
    verbatim in a table cell (nothing is escaped), and the finding in a
    list item. *)
Theorem X14_page_shows_the_data
  (sort_values : list TeamSummary -> list TeamSummary)
  (w : World) (df : DataFrame) (ps : list piece) :
  sorts_by_win_rate sort_values ->
  remote w CSV_URL = Some df ->
  df <> [] -> forallb match_record df = true ->
  open_read template_path w = Ok (template_of ps) ->
  literals_ok ps = true ->
  names_ok df = true ->
  exists top html,
    main sort_values w = write_text OUTPUT_PATH html w /\
    In top (rows (team_summary_of df)) /\
    (forall s, In (Lit s) ps -> contains html s = true) /\
    (In (Tok LastUpdated) ps ->
     contains html (strftime (clock w)) = true) /\
    (In (Tok TeamSummaryRows) ps ->
     forall r t, In r df -> HOME r = Some t \/ AWAY r = Some t ->
                 contains html (lit "<td>" ++ t ++ lit "</td>") = true) /\
    (In (Tok InterestingFindings) ps ->
     contains html (lit "<li>" ++ finding top ++ lit "</li>") = true).
Proof.
  intros Hs Hr Hne Hrec Hf Hps Hn.
  pose proof (match_records_present df Hne Hrec) as Hc.
  destruct (main_ok sort_values w df _ Hs Hr Hc Hf)
    as (top & Hin & _ & Hmain).
  rewrite fill_template in Hmain
    by (assumption || now apply rows_html_no_double_brace).
  exists top. eexists. split; [exact Hmain|]. split; [exact Hin|].
  split; [intros s Hs'; exact (instantiate_contains _ _ _ ps _ Hs')|].
  split; [intros H; exact (instantiate_contains _ _ _ ps _ H)|].
  split.
  - intros H r t Hr' Ht.
    destruct (row_of_team df r t Hr' Ht) as (row & Hrow & <-).
    eapply contains_trans; [exact (instantiate_contains _ _ _ ps _ H)|].
    eapply contains_trans; [exact (rows_html_contains_row _ row Hrow)|].
    eapply contains_trans; [apply row_html_contains_team|].
    apply td_contains.
  - intros H.
    eapply contains_trans; [exact (instantiate_contains _ _ _ ps _ H)|].
    unfold interesting_findings. cbn [flat_map]. apply contains_self.
Qed.

Lemma X14_witness :
  sorts_by_win_rate stable_sort_values /\
  remote (spec_world noon) CSV_URL = Some one_match /\
  forallb match_record one_match = true /\
  open_read template_path (spec_world noon) = Ok (template_of spec_pieces) /\
  literals_ok spec_pieces = true /\
  names_ok one_match = true /\
  exists html,
    main stable_sort_values (spec_world noon)
    = Ok (put OUTPUT_PATH (plain_file html) (spec_world noon)) /\
    contains html (lit "<td>" ++ lit "B" ++ lit "</td>") = true.
Proof.
  split; [exact stable_sort_values_ok|].
  do 5 (split; [reflexivity|]).
  destruct (X14_page_shows_the_data stable_sort_values (spec_world noon)
              one_match spec_pieces stable_sort_values_ok
              eq_refl ltac:(discriminate) eq_refl eq_refl eq_refl eq_refl)
    as (top & html & Hmain & _ & _ & _ & Hteams & _).
  exists html. split; [rewrite Hmain; reflexivity|].
  apply (Hteams ltac:(right; right; right; now left)
                (mk "2024-01-01" "A" "B" 2 0) (lit "B")).
  - now left.
  - right. reflexivity.
Defined.

(** X15: in a frame whose team names read as text and whose goal values
    add up to less than 2^53 in absolute value, as soon as one goal value
    is missing the goal columns are float columns and every goal total of
    the table is printed with a decimal point ("2.0"); when no goal value
    is missing the totals are printed as integers ("2"). *)
Theorem X15_goal_totals_as_floats (df : DataFrame) (row : TeamSummary) :
  text_names df = true ->
  goal_mass df < 2 ^ 53 ->
  In row (rows (team_summary_of df)) ->
  let page := team_summary_rows (team_summary_of df) in
  Z.abs (total_goals_for row) < 2 ^ 53 /\
  Z.abs (total_goals_against row) < 2 ^ 53 /\
  (existsb goal_missing df = true ->
   contains page (lit "<td>" ++ str_int (total_goals_for row)
                  ++ lit ".0</td>") = true /\
   contains page (lit "<td>" ++ str_int (total_goals_against row)
                  ++ lit ".0</td>") = true) /\
  (existsb goal_missing df = false ->
   contains page (lit "<td>" ++ str_int (total_goals_for row)
                  ++ lit "</td>") = true /\
   contains page (lit "<td>" ++ str_int (total_goals_against row)
                  ++ lit "</td>") = true).
Proof.
  intros _ Hmass Hrow page.
  assert (Hb : Z.abs (total_goals_for row) < 2 ^ 53 /\
               Z.abs (total_goals_against row) < 2 ^ 53).
  { cbn [rows team_summary_of] in Hrow.
    apply summary_row_inv in Hrow as [-> _].
    destruct (summarize_goals_exact (existsb goal_missing df) df (team row))
      as [F A]; [lia|].
    destruct (group_total_bound df (team row)) as [BF BA].
    rewrite !sum_cells_as_sum in BF, BA. rewrite F, A. lia. }
  split; [exact (proj1 Hb)|]. split; [exact (proj2 Hb)|].
  pose proof (rows_html_contains_row _ row Hrow) as Hpage. fold page in Hpage.
  cbn [goals_are_float team_summary_of] in Hpage.
  split; intros E; rewrite E in Hpage.
  - destruct (row_html_contains_goals true row) as [Hf Ha].
    change (lit ".0</td>") with (lit ".0" ++ lit "</td>").
    rewrite !(app_assoc (str_int _) (lit ".0")).
    split; (eapply contains_trans; [exact Hpage|]).
    + eapply contains_trans; [exact Hf | apply td_contains].
    + eapply contains_trans; [exact Ha | apply td_contains].
  - destruct (row_html_contains_goals false row) as [Hf Ha].
    split; (eapply contains_trans; [exact Hpage|]).
    + eapply contains_trans; [exact Hf | apply td_contains].
    + eapply contains_trans; [exact Ha | apply td_contains].
Qed.

Lemma X15_witness :
  text_names [missing_home_goal; drawn_match] = true /\
  goal_mass [missing_home_goal; drawn_match] < 2 ^ 53 /\
  In (summarize true (all_matches [missing_home_goal; drawn_match]) (lit "A"))
     (rows (team_summary_of [missing_home_goal; drawn_match])) /\
  existsb goal_missing [missing_home_goal; drawn_match] = true /\
  contains (team_summary_rows
              (team_summary_of [missing_home_goal; drawn_match]))
           (lit "<td>" ++ str_int 4 ++ lit ".0</td>") = true.
Proof.
  split; [reflexivity|]. split; [reflexivity|].
  assert (H : In (summarize true
                    (all_matches [missing_home_goal; drawn_match]) (lit "A"))
                 (rows (team_summary_of [missing_home_goal; drawn_match])))
    by (vm_compute; now left).
  split; [exact H|]. split; [reflexivity|].
  exact (proj2 (proj1 (proj2 (proj2
           (X15_goal_totals_as_floats [missing_home_goal; drawn_match] _
              eq_refl eq_refl H))) eq_refl)).
Defined.

(** ** Teams without a counted match *)

Lemma row_win_rate (df : DataFrame) (row : TeamSummary) :
  In row (rows (team_summary_of df)) ->
  win_rate row = div_round2 (total_wins row) (matches_played row).
Proof.
  intros Hrow. apply summary_row_inv in Hrow as [Erow _].
  rewrite Erow at 1. unfold summarize. cbn. now rewrite Erow.
Qed.

(** X16: a row whose matches_played is 0 (all records of the team lack a
    date) has an infinite win_rate when the team has a win and a NaN
    win_rate when it has none; no error is raised.  An infinite win_rate
    ranks first: as soon as one row has it, the finding reports a win rate
    of "inf".  A NaN win_rate ranks last: the finding reports "nan" only
    when every row has it. *)
Theorem X16_teams_without_counted_match
  (sort_values : list TeamSummary -> list TeamSummary) (df : DataFrame)
  (ts : SummaryFrame) (fs : list text) :
  sorts_by_win_rate sort_values ->
  fetch_and_process_data sort_values df = Ok (ts, fs) ->
  (forall row, In row (rows ts) -> matches_played row = 0 ->
     (0 < total_wins row -> win_rate row = Inf) /\
     (total_wins row = 0 -> win_rate row = NaN)) /\
  exists top,
    fs = [finding top] /\ In top (rows ts) /\
    ((exists row, In row (rows ts) /\ matches_played row = 0
                  /\ 0 < total_wins row) ->
     win_rate top = Inf /\ format_2f (win_rate top) = lit "inf") /\
    (win_rate top = NaN ->
     forall row, In row (rows ts) ->
       win_rate row = NaN /\ matches_played row = 0 /\ total_wins row = 0).
Proof.
  intros Hs H.
  apply fetch_ok_inv in H as (_ & -> & top & rest & E & ->).
  destruct (sorted_head_max sort_values _ top rest Hs E) as [Hin Hmax].
  assert (Hzero : forall row, In row (rows (team_summary_of df)) ->
            matches_played row = 0 ->
            (0 < total_wins row -> win_rate row = Inf) /\
            (total_wins row = 0 -> win_rate row = NaN)).
  { intros row Hrow Hm. rewrite (row_win_rate df row Hrow), Hm.
    unfold div_round2. cbn.
    split; intros Hw; destruct (Z.eqb_spec (total_wins row) 0);
      try lia; reflexivity. }
  split; [exact Hzero|].
  exists top. split; [reflexivity|]. split; [exact Hin|]. split.
  - intros (row & Hrow & Hm & Hw).
    pose proof (proj1 (Hzero row Hrow Hm) Hw) as Hinf.
    specialize (Hmax row Hrow). rewrite Hinf in Hmax.
    destruct (win_rate top); try discriminate. split; reflexivity.
  - intros Hnan row Hrow.
    specialize (Hmax row Hrow). rewrite Hnan in Hmax.
    assert (Hr : win_rate row = NaN)
      by (destruct (win_rate row); try discriminate; reflexivity).
    split; [exact Hr|].
    rewrite (row_win_rate df row Hrow) in Hr. unfold div_round2 in Hr.
    destruct (Z.eqb_spec (matches_played row) 0); [|discriminate].
    destruct (Z.eqb_spec (total_wins row) 0); [|discriminate].
    split; assumption.
Qed.

Lemma X16_witness :
  sorts_by_win_rate stable_sort_values /\
  exists fs,
    fetch_and_process_data stable_sort_values undated_win
    = Ok (team_summary_of undated_win, fs) /\
    exists top, fs = [finding top] /\ win_rate top = Inf.
Proof.
  split; [exact stable_sort_values_ok|].
  assert (E : exists fs, fetch_and_process_data stable_sort_values undated_win
                         = Ok (team_summary_of undated_win, fs))
    by (eexists; vm_compute; reflexivity).
  destruct E as [fs E]. exists fs. split; [exact E|].
  destruct (X16_teams_without_counted_match stable_sort_values undated_win
              _ _ stable_sort_values_ok E)
    as (_ & top & Hfs & _ & Hinf & _).
  exists top. split; [exact Hfs|].
  apply Hinf. exists (summarize false (all_matches undated_win) (lit "A")).
  split; [vm_compute; now left|]. split; vm_compute; reflexivity.
Defined.

(** ** Records with a date *)

(** X17: when every record carries a date, every row of the summary that
    the aggregator returns has total_wins <= matches_played and
    matches_played > 0, so that the win_rate division does not divide by
    zero, and its win_rate is a whole number of hundredths from 0.00 to
    1.00. *)
Theorem X17_bounds_with_dates
  (sort_values : list TeamSummary -> list TeamSummary) (df : DataFrame)
  (ts : SummaryFrame) (fs : list text) (row : TeamSummary) :
  (forall r, In r df -> notna (Date r) = true) ->
  fetch_and_process_data sort_values df = Ok (ts, fs) ->
  In row (rows ts) ->
  0 <= total_wins row <= matches_played row /\
  0 < matches_played row /\
  exists k, win_rate row = Hundredths k /\ 0 <= k <= 100.
Proof.
  intros Hd Hf Hrow.
  apply fetch_ok_inv in Hf as (_ & -> & _).
  now apply (summary_row_bounds df).
Qed.

Lemma X17_witness :
  (forall r, In r one_match -> notna (Date r) = true) /\
  0 <= total_wins (summarize false (all_matches one_match) (lit "A"))
    <= matches_played (summarize false (all_matches one_match) (lit "A")).
Proof.
  assert (Hd : forall r, In r one_match -> notna (Date r) = true)
    by (intros r [<-|[]]; reflexivity).
  split; [exact Hd|].
  eapply (X17_bounds_with_dates stable_sort_values one_match
            (team_summary_of one_match) _ _ Hd).
  - vm_compute. reflexivity.
  - vm_compute. now left.
Defined.

(** X18: for a non-empty input of match records, each with its date, its
    two teams and its two goal values, the aggregator returns exactly one
    finding.  It names a row of the summary whose win_rate is maximal over
    all rows, as the sentence "The team with the highest win rate is
    <team> with a win rate of <win_rate>.", the win_rate shown with two
    decimal places; for the one-match input the finding is "The team with
    the highest win rate is A with a win rate of 1.00.". *)
Theorem X18_finding_of_match_records
  (sort_values : list TeamSummary -> list TeamSummary) (df : DataFrame) :
  sorts_by_win_rate sort_values ->
  df <> [] ->
  forallb match_record df = true ->
  exists top kt,
    fetch_and_process_data sort_values df
    = Ok (team_summary_of df, [finding top]) /\
    In top (rows (team_summary_of df)) /\
    win_rate top = Hundredths kt /\
    (forall row, In row (rows (team_summary_of df)) ->
                 exists k, win_rate row = Hundredths k /\ k <= kt) /\
    finding top
    = lit "The team with the highest win rate is " ++ team top
      ++ lit " with a win rate of " ++ format_2f (win_rate top) ++ lit "." /\
    two_decimals (format_2f (win_rate top)) = true /\
    (df = one_match ->
     finding top
     = lit "The team with the highest win rate is A with a win rate of 1.00.").
Proof.
  intros Hs Hne Hrec.
  pose proof (match_records_present df Hne Hrec) as Hc.
  pose proof (match_records_dated df Hrec) as Hd.
  destruct (fetch_ok sort_values df Hs Hc) as (top & rest & E & Hf).
  destruct (sorted_head_max sort_values _ top rest Hs E) as [Hin Hmax].
  destruct (summary_row_bounds df top Hd Hin) as (_ & _ & kt & Et & Hkt).
  exists top, kt. split; [exact Hf|]. split; [exact Hin|].
  split; [exact Et|]. split.
  { intros row Hrow.
    destruct (summary_row_bounds df row Hd Hrow) as (_ & _ & k & Ek & _).
    exists k. split; [exact Ek|].
    specialize (Hmax row Hrow). rewrite Ek, Et in Hmax.
    now apply Z.leb_le. }
  split; [reflexivity|].
  split; [rewrite Et; now apply format_2f_unit|].
  intros ->.
  assert (Hrows : rows (team_summary_of one_match)
                  = [summarize false (all_matches one_match) (lit "A");
                     summarize false (all_matches one_match) (lit "B")])
    by (vm_compute; reflexivity).
  rewrite Hrows in Hin, Hmax.
  destruct Hin as [<-|[<-|[]]]; [vm_compute; reflexivity|].
  specialize (Hmax _ (or_introl eq_refl)). vm_compute in Hmax.
  discriminate Hmax.
Qed.

Lemma X18_witness :
  sorts_by_win_rate stable_sort_values /\
  one_match <> [] /\
  forallb match_record one_match = true /\
  fetch_and_process_data stable_sort_values one_match
  = Ok (team_summary_of one_match,
        [lit "The team with the highest win rate is A with a win rate of 1.00."]).
Proof.
  split; [exact stable_sort_values_ok|]. split; [discriminate|].
  split; [reflexivity|].
  destruct (X18_finding_of_match_records stable_sort_values one_match
              stable_sort_values_ok ltac:(discriminate) eq_refl)
    as (top & kt & Hf & _ & _ & _ & _ & _ & Hone).
  rewrite Hf, (Hone eq_refl). reflexivity.
Defined.
